(** * message_ix: the CI workflow and the Westeros fossil-resource tutorial

    The repository holds two artefacts: the GitHub Actions workflow
    [pytest] (a declarative YAML file) and the tutorial notebook
    [westeros_fossil_resource.ipynb] (a sequence of Python cells calling the
    modelling platform).  Both are embedded here as data, next to the
    semantics that gives them a behaviour: the runner's rules for matrix
    expansion, expression rendering and step execution for the workflow, and
    an interpreter for the Python fragment the notebook is written in. *)

From Stdlib Require Import String Ascii List ZArith Bool Arith Lia Sorted.
Import ListNotations.
Open Scope string_scope.
#[global] Set Warnings "-register-all".

(** ** Association lists

    YAML mappings and Python dicts both keep the order of their keys, and
    that order is visible (matrix expansion, the columns of a frame), so
    they are association lists rather than finite maps. *)

Section Assoc.
Context {V : Type}.

Fixpoint lookup (k : string) (l : list (string * V)) : option V :=
  match l with
  | [] => None
  | (k', v) :: rest => if String.eqb k k' then Some v else lookup k rest
  end.

(** [d[k] = v] on a dict: an existing key keeps its position, a new key
    goes last. *)
Fixpoint update (k : string) (v : V) (l : list (string * V)) : list (string * V) :=
  match l with
  | [] => [(k, v)]
  | (k', v') :: rest =>
      if String.eqb k k' then (k', v) :: rest else (k', v') :: update k v rest
  end.

Definition keys (l : list (string * V)) : list string := map fst l.
End Assoc.

(** The double-quote character, for the quoted words of shell and R lines. *)
Definition dq : string := String (ascii_of_nat 34) EmptyString.

(** [starts_with p s]: the runner's [startsWith(s, p)]. *)
Definition starts_with (p s : string) : bool := String.prefix p s.

(** [contains p s]: [p] occurs in [s]. *)
Fixpoint contains (p s : string) : bool :=
  String.prefix p s ||
  match s with
  | EmptyString => false
  | String _ s' => contains p s'
  end.

(** * The workflow file *)

Module Workflow.

(** A value of the file is text with [${{ ... }}] expressions in it. *)
Inductive frag : Type :=
| Lit (s : string)
| Env (var : string)        (* ${{ env.var }} *)
| Matrix (axis : string).   (* ${{ matrix.axis }} *)

Definition template := list frag.

(** The only [if:] of the file is [startsWith(matrix.os, 'macos')]. *)
Inductive cond : Type :=
| StartsWith (what : frag) (prefix : string).

Record step : Type := {
  name : option string;
  uses : option string;
  with_ : list (string * list template);
  run : list template;
  shell : option string;
  working_directory : option string;
  step_env : list (string * template);
  if_ : option cond;
  continue_on_error : option bool
}.

Definition combo := list (string * string).

Record strategy_t : Type := {
  matrix : list (string * list string);
  exclude : list combo;
  fail_fast : option bool
}.

Record job_t : Type := {
  strategy : strategy_t;
  runs_on : template;
  job_name : template;
  job_continue_on_error : option bool;
  steps : list step
}.

Record workflow : Type := {
  wf_name : string;
  on : list (string * list string);
  env : list (string * string);
  jobs : list (string * job_t)
}.

Definition line (s : string) : template := [Lit s].

(** ** The file, key by key *)

Definition check_out_ixmp : step :=
  {| name := Some "Check out ixmp";
     uses := Some "actions/checkout@v2";
     with_ := [("repository", [line "iiasa/ixmp"]);
               ("path", [line "ixmp"]);
               ("fetch-depth", [[Env "depth"]])];
     run := []; shell := None; working_directory := None; step_env := [];
     if_ := None; continue_on_error := None |}.

Definition check_out_message_ix : step :=
  {| name := Some "Check out message_ix";
     uses := Some "actions/checkout@v2";
     with_ := [("path", [line "message_ix"]);
               ("fetch-depth", [[Env "depth"]])];
     run := []; shell := None; working_directory := None; step_env := [];
     if_ := None; continue_on_error := None |}.

Definition fetch_tags : step :=
  {| name := Some "Fetch tags (for setuptools-scm)";
     uses := None; with_ := [];
     run := [[Lit "(cd ixmp; git fetch --tags --depth="; Env "depth"; Lit ")"];
             [Lit "(cd message_ix; git fetch --tags --depth="; Env "depth"; Lit ")"]];
     shell := Some "bash";
     working_directory := None; step_env := []; if_ := None;
     continue_on_error := None |}.

Definition setup_python : step :=
  {| name := None;
     uses := Some "actions/setup-python@v2";
     with_ := [("python-version", [[Matrix "python-version"]])];
     run := []; shell := None; working_directory := None; step_env := [];
     if_ := None; continue_on_error := None |}.

Definition set_reticulate_python : step :=
  {| name := Some "Set RETICULATE_PYTHON";
     uses := None; with_ := [];
     run := [line ("echo " ++ dq ++ "RETICULATE_PYTHON=$pythonLocation" ++ dq ++ " >> $GITHUB_ENV")];
     shell := Some "bash";
     working_directory := None; step_env := []; if_ := None;
     continue_on_error := None |}.

Definition setup_r : step :=
  {| name := None;
     uses := Some "r-lib/actions/setup-r@master";
     with_ := []; run := []; shell := None; working_directory := None;
     step_env := []; if_ := None; continue_on_error := None |}.

Definition use_openjdk : step :=
  {| name := Some "Use OpenJDK 14 (macOS only)";
     uses := Some "actions/setup-java@v1";
     with_ := [("java-version", [line "14"])];
     run := []; shell := None; working_directory := None; step_env := [];
     if_ := Some (StartsWith (Matrix "os") "macos");
     continue_on_error := None |}.

Definition cache : step :=
  {| name := Some "Cache GAMS installer, Python packages, and R packages";
     uses := Some "actions/cache@v2";
     with_ :=
       [("path", [line "gams";
                  line "~/.cache/pip";
                  line "~/Library/Caches/pip";
                  line "~/appdata/local/pip/cache";
                  [Env "R_LIBS_USER"]]);
        ("key", [[Matrix "os"; Lit "-gams"; Env "GAMS_VERSION"; Lit "-py";
                  Matrix "python-version"]]);
        ("restore-keys", [[Matrix "os"; Lit "-gams"; Env "GAMS_VERSION"; Lit "-"];
                          [Matrix "os"; Lit "-"]])];
     run := []; shell := None; working_directory := None; step_env := [];
     if_ := None; continue_on_error := None |}.

Definition install_gams : step :=
  {| name := Some "Install GAMS and Graphviz";
     uses := None; with_ := [];
     run := [line "ixmp/ci/install-gams.sh";
             line "ixmp/ci/install-graphviz.sh"];
     shell := Some "bash";
     working_directory := None;
     step_env := [("CI_OS", [Matrix "os"])];
     if_ := None; continue_on_error := None |}.

Definition check_gams : step :=
  {| name := Some "Check GAMS";
     uses := None; with_ := [];
     run := [line "gams"];
     shell := Some "bash";
     working_directory := None; step_env := []; if_ := None;
     continue_on_error := None |}.

Definition upgrade_pip : step :=
  {| name := Some "Upgrade pip, wheel, setuptools-scm";
     uses := None; with_ := [];
     run := [line "python -m pip install --upgrade pip wheel setuptools-scm"];
     shell := None;
     working_directory := None; step_env := []; if_ := None;
     continue_on_error := None |}.

Definition install_ixmp : step :=
  {| name := Some "Install ixmp and dependencies";
     uses := None; with_ := [];
     run := [line "pip install ."];
     shell := None;
     working_directory := Some "ixmp";
     step_env := []; if_ := None; continue_on_error := None |}.

Definition install_python_package : step :=
  {| name := Some "Install Python package and dependencies";
     uses := None; with_ := [];
     run := [line "pip install .[docs,reporting,tests,tutorial]"];
     shell := None;
     working_directory := Some "message_ix";
     step_env := []; if_ := None; continue_on_error := None |}.

Definition install_r_package : step :=
  {| name := Some "Install R package, dependencies, and tutorial requirements";
     uses := None; with_ := [];
     run := [line ("install.packages(" ++ dq ++ "remotes" ++ dq ++ ")");
             line ("remotes::install_cran(c(" ++ dq ++ "rcmdcheck" ++ dq ++ ", " ++ dq ++ "dplyr" ++ dq ++ ", " ++ dq ++ "IRkernel" ++ dq ++ "))");
             line ("remotes::install_deps(" ++ dq ++ "rmessageix" ++ dq ++ ", dependencies = TRUE)");
             line EmptyString;
             line "# For R tutorial notebooks, run via the pytest suite: set up R kernel;";
             line "# actually install the R package";
             line "IRkernel::installspec()";
             line ("remotes::install_local(" ++ dq ++ "rmessageix" ++ dq ++ ")")];
     shell := Some "Rscript {0}";
     working_directory := Some "message_ix";
     step_env := []; if_ := None; continue_on_error := None |}.

Definition run_pytest : step :=
  {| name := Some "Run test suite using pytest";
     uses := None; with_ := [];
     run := [line ("pytest message_ix -m " ++ dq ++ "not nightly" ++ dq ++ " --verbose --cov-report=xml --color=yes")];
     shell := None;
     working_directory := Some "message_ix";
     step_env := []; if_ := None; continue_on_error := None |}.

Definition run_r_cmd_check : step :=
  {| name := Some "Run R CMD check";
     uses := None; with_ := [];
     run := [line "rcmdcheck::rcmdcheck(";
             line ("  " ++ dq ++ "rmessageix" ++ dq ++ ",");
             line ("  args = c(" ++ dq ++ "--no-manual" ++ dq ++ ", " ++ dq ++ "--as-cran" ++ dq ++ ", " ++ dq ++ "--no-multiarch" ++ dq ++ "),");
             line ("  error_on = " ++ dq ++ "warning" ++ dq ++ ",");
             line ("  check_dir = " ++ dq ++ "check" ++ dq);
             line ")"];
     shell := Some "Rscript {0}";
     working_directory := Some "message_ix";
     step_env := []; if_ := None; continue_on_error := None |}.

Definition upload_coverage : step :=
  {| name := Some "Upload test coverage to Codecov.io";
     uses := None; with_ := [];
     run := [line "curl -o codecov.sh https://codecov.io/bash";
             line "chmod +x codecov.sh";
             line "./codecov.sh"];
     shell := Some "bash";
     working_directory := Some "message_ix";
     step_env := []; if_ := None; continue_on_error := None |}.

Definition pytest : job_t :=
  {| strategy :=
       {| matrix := [("os", ["macos-latest"; "ubuntu-latest"; "windows-latest"]);
                     ("python-version", ["3.6"; "3.8"])];
          exclude := [[("os", "windows-latest"); ("python-version", "3.6")]];
          fail_fast := Some false |};
     runs_on := [Matrix "os"];
     job_name := [Matrix "os"; Lit "-py"; Matrix "python-version"];
     job_continue_on_error := None;
     steps := [check_out_ixmp; check_out_message_ix; fetch_tags; setup_python;
               set_reticulate_python; setup_r; use_openjdk; cache;
               install_gams; check_gams; upgrade_pip; install_ixmp;
               install_python_package; install_r_package; run_pytest;
               run_r_cmd_check; upload_coverage] |}.

Definition pytest_yaml : workflow :=
  {| wf_name := "pytest";
     on := [("push", ["master"]); ("pull_request", ["master"])];
     env := [("GAMS_VERSION", "25.1.1"); ("depth", "100")];
     jobs := [("pytest", pytest)] |}.

(** ** Expressions

    [render] substitutes the [env] and [matrix] contexts into a value; a
    name the context does not hold renders as the empty string. *)

Definition context_get (ctx : list (string * string)) (k : string) : string :=
  match lookup k ctx with
  | Some v => v
  | None => EmptyString
  end.

Definition render_frag (envc : list (string * string)) (c : combo) (f : frag) : string :=
  match f with
  | Lit s => s
  | Env v => context_get envc v
  | Matrix a => context_get c a
  end.

Definition render (envc : list (string * string)) (c : combo) (t : template) : string :=
  fold_right (fun f acc => render_frag envc c f ++ acc) EmptyString t.

Definition holds (envc : list (string * string)) (c : combo) (cnd : cond) : bool :=
  match cnd with
  | StartsWith what p => starts_with p (render_frag envc c what)
  end.

(** ** Matrix expansion

    One combination per element of the product of the axes, in the order
    of the file, less those an [exclude] entry matches.  An entry matches
    a combination that agrees with it on every key the entry gives. *)

Fixpoint product (axes : list (string * list string)) : list combo :=
  match axes with
  | [] => [[]]
  | (k, vs) :: rest =>
      flat_map (fun v => map (fun c => (k, v) :: c) (product rest)) vs
  end.

Definition agrees (c : combo) (kv : string * string) : bool :=
  match lookup (fst kv) c with
  | Some v => String.eqb v (snd kv)
  | None => false
  end.

Definition matches (entry c : combo) : bool := forallb (agrees c) entry.

Definition excluded (st : strategy_t) (c : combo) : bool :=
  existsb (fun entry => matches entry c) (exclude st).

Definition expand (st : strategy_t) : list combo :=
  filter (fun c => negb (excluded st c)) (product (matrix st)).

(** ** Running the steps of one job

    Steps run in the order of the file.  A step without a status function
    in its [if:] runs only while every earlier step has succeeded; a step
    that exits non-zero fails the job unless it sets [continue-on-error].
    [exit_code i] is the exit status step [i] has when it runs. *)

Inductive conclusion : Type := Success | Failure.

Definition masked (s : step) : bool :=
  match continue_on_error s with
  | Some b => b
  | None => false
  end.

Section Run.
Variable envc : list (string * string).
Variable c : combo.
Variable exit_code : nat -> Z.

Definition should_run (ok : bool) (s : step) : bool :=
  ok && match if_ s with
        | None => true
        | Some cnd => holds envc c cnd
        end.

Fixpoint run_steps (i : nat) (ok : bool) (ss : list step) : list nat * bool :=
  match ss with
  | [] => ([], ok)
  | s :: rest =>
      if should_run ok s
      then let (tr, ok') := run_steps (S i) ((exit_code i =? 0)%Z || masked s) rest in
           (i :: tr, ok')
      else run_steps (S i) ok rest
  end.


(** The indices of the steps that ran, and whether all went well. *)
Definition trace (i : nat) (ok : bool) (ss : list step) : list nat :=
  fst (run_steps i ok ss).

Definition final (i : nat) (ok : bool) (ss : list step) : bool :=
  snd (run_steps i ok ss).
End Run.

(** The steps a job ran, and how it ended. *)
Definition executed (w : workflow) (j : job_t) (c : combo) (exit_code : nat -> Z) : list nat :=
  trace (env w) c exit_code 0 true (steps j).

Definition concluded (w : workflow) (j : job_t) (c : combo) (exit_code : nat -> Z) : conclusion :=
  if final (env w) c exit_code 0 true (steps j) then Success else Failure.

(** ** Sibling jobs of a matrix

    With [fail-fast] (the default when the key is absent) the runner
    cancels the jobs still queued or running once one job of the matrix
    has failed. *)

Definition cancels_siblings (st : strategy_t) : bool :=
  match fail_fast st with
  | Some b => b
  | None => true
  end.

Definition combo_eqb (a b : combo) : bool :=
  (length a =? length b)%nat && forallb (agrees b) a.

Definition is_failure (r : conclusion) : bool :=
  match r with
  | Failure => true
  | Success => false
  end.

Definition may_be_cancelled (st : strategy_t) (results : combo -> conclusion) (c : combo) : bool :=
  cancels_siblings st &&
  existsb (fun c' => negb (combo_eqb c c') && is_failure (results c')) (expand st).

(** ** Lookups used by the statements *)

Definition opt_is (o : option string) (s : string) : bool :=
  match o with
  | Some x => String.eqb x s
  | None => false
  end.

Fixpoint position_from (i : nat) (n : string) (ss : list step) : option nat :=
  match ss with
  | [] => None
  | s :: rest => if opt_is (name s) n then Some i else position_from (S i) n rest
  end.

Definition position (n : string) (j : job_t) : option nat := position_from 0 n (steps j).

Definition uses_action (a : string) (s : step) : bool := opt_is (uses s) a.

Definition rendered_with (w : workflow) (c : combo) (k : string) (s : step) : option (list string) :=
  option_map (map (render (env w) c)) (lookup k (with_ s)).

(** A shell line that would hide a failing command from the runner. *)
Definition swallows_exit (t : template) : bool :=
  existsb (fun f => match f with
                    | Lit s => contains "||" s || contains "set +e" s || contains "exit 0" s
                    | _ => false
                    end) t.

Definition hides_failure (s : step) : bool :=
  masked s || existsb swallows_exit (run s).

Definition with_env (w : workflow) (e : list (string * string)) : workflow :=
  {| wf_name := wf_name w; on := on w; env := e; jobs := jobs w |}.

Definition with_fail_fast (st : strategy_t) (b : option bool) : strategy_t :=
  {| matrix := matrix st; exclude := exclude st; fail_fast := b |}.

(** ** Names used by the statements *)

Definition pair_of (os py : string) : combo := [("os", os); ("python-version", py)].

Definition oses : list string := ["macos-latest"; "ubuntu-latest"; "windows-latest"].
Definition pythons : list string := ["3.6"; "3.8"].

Definition gams_step := "Install GAMS and Graphviz".
Definition ixmp_step := "Install ixmp and dependencies".
Definition message_ix_step := "Install Python package and dependencies".
Definition r_step := "Install R package, dependencies, and tutorial requirements".
Definition pytest_step := "Run test suite using pytest".
Definition r_check_step := "Run R CMD check".
Definition codecov_step := "Upload test coverage to Codecov.io".

(** [a] comes before [b] in the file, and in a run where [b] runs, [a]
    has run before it and exited zero. *)
Definition runs_after (exit_code : nat -> Z) (tr : list nat) (a b : string) : Prop :=
  exists i k,
    position a pytest = Some i /\ position b pytest = Some k /\ i < k /\
    (In k tr -> In i tr /\ exit_code i = 0%Z).

Definition checkouts : list step :=
  filter (uses_action "actions/checkout@v2") (steps pytest).

Definition mentions (p : string) (t : template) : bool :=
  existsb (fun f => match f with
                    | Lit s => contains p s
                    | _ => false
                    end) t.

(** The [git fetch] lines of the [run:] scripts of the job. *)
Definition git_fetches : list template :=
  filter (mentions "git fetch") (flat_map run (steps pytest)).

Definition refers_to_env (v : string) (t : template) : bool :=
  existsb (fun f => match f with
                    | Env x => String.eqb x v
                    | _ => false
                    end) t.

(** ** Conditions and references

    A step is wanted in a job when it has no [if:] or its condition holds
    there. *)
Definition wanted (envc : list (string * string)) (c : combo) (s : step) : bool :=
  match if_ s with
  | None => true
  | Some cnd => holds envc c cnd
  end.

Definition java_step := "Use OpenJDK 14 (macOS only)".

Definition on_macos (c : combo) : bool := starts_with "macos" (context_get c "os").

(** Every value of a step that may hold an expression. *)
Definition step_templates (s : step) : list template :=
  flat_map snd (with_ s) ++ run s ++ map snd (step_env s) ++
  match if_ s with
  | Some (StartsWith what _) => [[what]]
  | None => []
  end.

Definition job_templates (j : job_t) : list template :=
  runs_on j :: job_name j :: flat_map step_templates (steps j).

Definition matrix_refs (t : template) : list string :=
  flat_map (fun f => match f with
                     | Matrix a => [a]
                     | _ => []
                     end) t.

(** The invocations whose order the job fixes, and the names of the steps
    of a trace. *)
Definition ordered_steps : list string :=
  [gams_step; ixmp_step; message_ix_step; r_step; pytest_step; r_check_step;
   codecov_step].

Definition ran_names (j : job_t) (tr : list nat) : list string :=
  flat_map (fun k => match nth_error (steps j) k with
                     | Some s => match name s with
                                 | Some n => [n]
                                 | None => []
                                 end
                     | None => []
                     end) tr.

Definition ordered_among (l : list string) : list string :=
  filter (fun n => existsb (String.eqb n) ordered_steps) l.

Definition env_refs (t : template) : list string :=
  flat_map (fun f => match f with
                     | Env v => [v]
                     | _ => []
                     end) t.

End Workflow.

(** * The Python fragment of the notebook

    The notebook is straight Python: imports, assignments, calls and one
    [for] loop.  The abstract syntax below has these and the control
    statements a cell could also hold ([if], [while], [try], [raise],
    [class]), so that their absence from the notebook is a fact about the
    notebook and not about the syntax. *)

Module Python.

Inductive value : Type :=
| VNone
| VStr (s : string)
| VInt (n : Z)
| VBool (b : bool)
| VList (vs : list value)
| VTuple (vs : list value)
| VDict (items : list (string * value))
| VFrame (columns : list (string * value))   (* pandas.DataFrame *)
| VSeries (vs : list value)                  (* pandas.Series *)
| VArray (vs : list value)                   (* numpy.ndarray *)
| VRef (h : nat)                             (* an object of the platform *)
| VModule (m : string)
| VFunction (f : string)
| VMethod (self : value) (m : string).

Inductive expr : Type :=
| Constant (v : value)
| Name (id : string)
| List (elts : list expr)
| Tuple (elts : list expr)
| Dict (items : list (string * expr))
| Subscript (e : expr) (index : expr)
| Attribute (e : expr) (attr : string)
| Call (func : expr) (args : list expr) (keywords : list (string * expr)).

Inductive stmt : Type :=
| Import (module : string) (asname : option string)
| ImportFrom (module : string) (name : string)
| Magic (text : string)
| Assign (targets : list string) (e : expr)
| Expr (e : expr)
| For (target : string) (iter : expr) (body : list stmt)
| If (test : expr) (body : list stmt) (orelse : list stmt)
| While (test : expr) (body : list stmt)
| Try (body : list stmt) (handler : list stmt)
| Raise (exc : expr)
| ClassDef (name : string) (bases : list expr) (body : list stmt).

Inductive cell : Type :=
| Markdown (heading : string)
| Code (source : list stmt).

(** ** The platform

    The objects the platform hands out live in a heap and are known to
    the notebook by reference.  A scenario object names a (model,
    scenario) entry of the database. *)

Inductive object : Type :=
| APlatform
| AScenario (model scenario : string)
| APlots (ds : value).

Record event : Type := {
  target : option nat;
  callee : string;
  args : list value;
  kwargs : list (string * value)
}.

(** Modelled from the spec: the scenario store behind [message_ix.Scenario],
    which is not among the sources.  The spec leaves the platform opaque (a
    scenario is "a named, versioned input/output dataset managed entirely by
    the external platform"), so an entry is kept uninterpreted: it is the
    calls made on it, in order.  What the platform makes of them (the rows
    it holds, whether it has a solution) is not modelled; only which entry a
    call touches is. *)
Definition scen_data : Type := list event.

Definition new_scenario : scen_data := [].

Definition applied (e : event) (d : scen_data) : scen_data := (d ++ [e])%list.

Definition key := (string * string)%type.

Definition key_eqb (a b : key) : bool :=
  String.eqb (fst a) (fst b) && String.eqb (snd a) (snd b).

(** The database: the newest entry of a key is the one that counts. *)
Definition database := list (key * scen_data).

Fixpoint db_get (k : key) (db : database) : scen_data :=
  match db with
  | [] => new_scenario
  | (k', d) :: rest => if key_eqb k k' then d else db_get k rest
  end.

Definition db_set (k : key) (d : scen_data) (db : database) : database :=
  (k, d) :: db.

Inductive exn : Type :=
| PlatformError (call : nat)
| NameError (id : string)
| KeyError (k : value)
| IndexError
| TypeError
| ValueError
| AttributeError (attr : string)
| ImportError (module : string)
| Raised (v : value).

Record state : Type := {
  vars : list (string * value);
  heap : list object;
  db : database;
  log : list event
}.

(** What the platform answers: whether its n-th call raises ([fails], call
    by call; the calls past the end of the list do not raise), and the data
    it returns to the notebook's queries. *)
Record answers : Type := {
  fails : list bool;
  years : list (Z * Z);        (* vintage_and_active_years() *)
  horizon : list value;        (* set('year') *)
  objective : value            (* var('OBJ')['lvl'] *)
}.

Inductive result (A : Type) : Type :=
| Ok (a : A) (s : state)
| Exc (e : exn) (s : state)
| OutOfFuel.
Arguments Ok {A} a s.
Arguments Exc {A} e s.
Arguments OutOfFuel {A}.

Definition bind {A B : Type} (r : result A) (k : A -> state -> result B) : result B :=
  match r with
  | Ok a s => k a s
  | Exc e s => Exc e s
  | OutOfFuel => OutOfFuel
  end.

Notation "'do' x , s <- r ; k" := (bind r (fun x s => k))
  (at level 10, x name, s name, r at level 100, k at level 200).

Definition set_var (x : string) (v : value) (s : state) : state :=
  {| vars := update x v (vars s); heap := heap s; db := db s; log := log s |}.

Definition alloc (o : object) (s : state) : value * state :=
  (VRef (length (heap s)),
   {| vars := vars s; heap := heap s ++ [o]; db := db s; log := log s |}).

Definition record (e : event) (s : state) : state :=
  {| vars := vars s; heap := heap s; db := db s; log := log s ++ [e] |}.

Definition write (k : key) (f : scen_data -> scen_data) (s : state) : state :=
  {| vars := vars s; heap := heap s; db := db_set k (f (db_get k (db s))) (db s);
     log := log s |}.

(** ** Built-in behaviour *)

Definition listlike (v : value) : bool :=
  match v with
  | VList _ | VSeries _ | VArray _ => true
  | _ => false
  end.

Definition elements (v : value) : option (list value) :=
  match v with
  | VList vs | VTuple vs | VSeries vs | VArray vs => Some vs
  | VDict items => Some (map VStr (keys items))
  | _ => None
  end.

Definition truthy (v : value) : bool :=
  match v with
  | VNone => false
  | VBool b => b
  | VInt n => negb (n =? 0)%Z
  | VStr EmptyString => false
  | VList [] | VTuple [] | VDict [] => false
  | _ => true
  end.

(** The lengths of the plain arrays among the columns given to
    [DataFrame]; series are aligned on their index instead. *)
Definition array_lengths (items : list (string * value)) : list nat :=
  flat_map (fun kv => match snd kv with
                      | VList l | VArray l => [length l]
                      | _ => []
                      end) items.

Definition agree (ns : list nat) : bool :=
  match ns with
  | [] => true
  | n :: rest => forallb (Nat.eqb n) rest
  end.

(** [pandas.DataFrame(data)] for a dict: one column per key, in the order
    of the keys; scalars are broadcast.  A dict of scalars only, or arrays
    of different lengths, is a [ValueError]. *)
Definition DataFrame (data : value) (s : state) : result value :=
  match data with
  | VDict items =>
      if existsb (fun kv => listlike (snd kv)) items && agree (array_lengths items)
      then Ok (VFrame items) s
      else Exc ValueError s
  | VFrame columns => Ok (VFrame columns) s
  | _ => Exc ValueError s
  end.

Definition dict_update (d kw : list (string * value)) : list (string * value) :=
  fold_left (fun acc kv => update (fst kv) (snd kv) acc) kw d.

(** Modelled from the spec: [message_ix.utils.make_df], which the notebook
    imports and which is not among the sources.  The keyword arguments
    extend or overwrite the fields of [base], and the result is the frame
    of that dict. *)
Definition make_df (base : value) (kw : list (string * value)) (s : state) : result value :=
  match base with
  | VDict items => DataFrame (VDict (dict_update items kw)) s
  | VFrame columns => DataFrame (VDict (dict_update columns kw)) s
  | _ => Exc ValueError s
  end.

Definition nrows (columns : list (string * value)) : nat :=
  match flat_map (fun kv => match elements (snd kv) with
                            | Some l => if listlike (snd kv) then [length l] else []
                            | None => []
                            end) columns with
  | n :: _ => n
  | [] => 0
  end.

Definition column (columns : list (string * value)) (v : value) : value :=
  match v with
  | VList l | VArray l | VSeries l => VSeries l
  | _ => VSeries (repeat v (nrows columns))
  end.

Definition item (vs : list value) (n : Z) (s : state) : result value :=
  let i := if (n <? 0)%Z then (Z.of_nat (length vs) + n)%Z else n in
  if (i <? 0)%Z then Exc IndexError s
  else match nth_error vs (Z.to_nat i) with
       | Some v => Ok v s
       | None => Exc IndexError s
       end.

Definition subscript (v i : value) (s : state) : result value :=
  match v, i with
  | VDict items, VStr k =>
      match lookup k items with
      | Some x => Ok x s
      | None => Exc (KeyError i) s
      end
  | VFrame columns, VStr k =>
      match lookup k columns with
      | Some x => Ok (column columns x) s
      | None => Exc (KeyError i) s
      end
  | VList vs, VInt n | VTuple vs, VInt n | VSeries vs, VInt n | VArray vs, VInt n =>
      item vs n s
  | _, _ => Exc TypeError s
  end.

Definition modules : list (string * list string) :=
  [("pandas", ["DataFrame"]);
   ("ixmp", ["Platform"]);
   ("message_ix", ["Scenario"]);
   ("message_ix.utils", ["make_df"]);
   ("tools", ["Plots"])].

Definition member (m a : string) : bool :=
  match lookup m modules with
  | Some names => existsb (String.eqb a) names
  | None => false
  end.

Definition qualified (m a : string) : string := m ++ "." ++ a.

Definition getattr (v : value) (a : string) (s : state) : result value :=
  match v with
  | VModule m =>
      if member m a then Ok (VFunction (qualified m a)) s
      else Exc (AttributeError a) s
  | VRef _ => Ok (VMethod v a) s
  | VDict _ =>
      if String.eqb a "keys" then Ok (VMethod v a) s else Exc (AttributeError a) s
  | VSeries vs =>
      if String.eqb a "values" then Ok (VArray vs) s
      else if String.eqb a "tolist" then Ok (VMethod v a) s
      else Exc (AttributeError a) s
  | VArray _ =>
      if String.eqb a "tolist" then Ok (VMethod v a) s else Exc (AttributeError a) s
  | _ => Exc (AttributeError a) s
  end.

(** ** Calls into the platform *)

Definition argument (i : nat) (name : string)
    (args : list value) (kw : list (string * value)) : option value :=
  match nth_error args i with
  | Some v => Some v
  | None => lookup name kw
  end.

Definition string_or (d : string) (v : option value) : string :=
  match v with
  | Some (VStr x) => x
  | _ => d
  end.

(** Modelled from the spec: the methods of [tools.Plots], which the
    notebook imports and which is not among the sources; plotting reads
    the scenario it was built on and writes nothing. *)
Definition plot_methods : list string :=
  ["plot_activity"; "plot_capacity"; "plot_prices"; "plot_fossil_supply_curve";
   "plot_extraction"; "plot_demand"; "plot_new_capacity"].

(** The platform (ixmp, and the Scenario class built on it) is not among
    the sources.  Of a call that does not raise, the model keeps what the
    notebook can observe: the object returned, which entry of the database
    the call was made on, and, for the three queries, the data of [P]. *)
Section Platform.
Variable P : answers.

(** Modelled from the spec: the methods of [message_ix.Scenario] the
    notebook calls.  A call [e] that changes a scenario is applied to the
    entry [k] of its receiver; [clone] makes the entry of the new name from
    that of the receiver and leaves the receiver's as it is; the three
    queries change nothing. *)
Definition scenario_method (e : event) (k : key) (m : string)
    (args : list value) (kw : list (string * value)) (s : state) : result value :=
  if String.eqb m "clone" then
    let model := string_or (fst k) (argument 0 "model" args kw) in
    let scenario := string_or (snd k) (argument 1 "scenario" args kw) in
    let copy := applied e (db_get k (db s)) in
    let s' := {| vars := vars s; heap := heap s;
                 db := db_set (model, scenario) copy (db s); log := log s |} in
    Ok (fst (alloc (AScenario model scenario) s')) (snd (alloc (AScenario model scenario) s'))
  else if String.eqb m "check_out" then Ok VNone (write k (applied e) s)
  else if String.eqb m "add_set" then
    match args with
    | [VStr name; v] => Ok VNone (write k (applied e) s)
    | _ => Exc TypeError s
    end
  else if String.eqb m "add_par" then
    match args with
    | [VStr name; v] => Ok VNone (write k (applied e) s)
    | _ => Exc TypeError s
    end
  else if String.eqb m "commit" then
    match argument 0 "comment" args kw with
    | Some c => Ok VNone (write k (applied e) s)
    | None => Exc TypeError s
    end
  else if String.eqb m "set_as_default" then Ok VNone (write k (applied e) s)
  else if String.eqb m "solve" then Ok VNone (write k (applied e) s)
  else if String.eqb m "vintage_and_active_years" then
    Ok (VFrame [("year_vtg", VSeries (map (fun p => VInt (fst p)) (years P)));
                ("year_act", VSeries (map (fun p => VInt (snd p)) (years P)))]) s
  else if String.eqb m "set" then Ok (VSeries (horizon P)) s
  else if String.eqb m "var" then Ok (VDict [("lvl", objective P)]) s
  else Exc (AttributeError m) s.

Definition construct (f : string)
    (args : list value) (kw : list (string * value)) (s : state) : result value :=
  if String.eqb f "ixmp.Platform" then
    Ok (fst (alloc APlatform s)) (snd (alloc APlatform s))
  else if String.eqb f "message_ix.Scenario" then
    match argument 1 "model" args kw, argument 2 "scenario" args kw with
    | Some (VStr model), Some (VStr scenario) =>
        Ok (fst (alloc (AScenario model scenario) s))
           (snd (alloc (AScenario model scenario) s))
    | _, _ => Exc TypeError s
    end
  else if String.eqb f "tools.Plots" then
    match argument 0 "ds" args kw with
    | Some ds => Ok (fst (alloc (APlots ds) s)) (snd (alloc (APlots ds) s))
    | None => Exc TypeError s
    end
  else Exc TypeError s.

Definition method (e : event) (h : nat) (m : string)
    (args : list value) (kw : list (string * value)) (s : state) : result value :=
  match nth_error (heap s) h with
  | Some (AScenario model scenario) => scenario_method e (model, scenario) m args kw s
  | Some APlatform =>
      if String.eqb m "close_db" then Ok VNone s else Exc (AttributeError m) s
  | Some (APlots _) =>
      if existsb (String.eqb m) plot_methods then Ok VNone s
      else Exc (AttributeError m) s
  | None => Exc TypeError s
  end.

(** Every call into the platform is logged, and may raise. *)
Definition platform_call (recv : option nat) (f : string)
    (args : list value) (kw : list (string * value)) (s : state) : result value :=
  let n := length (log s) in
  let e := {| target := recv; callee := f; args := args; kwargs := kw |} in
  let s1 := record e s in
  if nth n (fails P) false then Exc (PlatformError n) s1
  else match recv with
       | Some h => method e h f args kw s1
       | None => construct f args kw s1
       end.

Definition apply (f : value) (args : list value) (kw : list (string * value))
    (s : state) : result value :=
  match f with
  | VFunction name =>
      if String.eqb name "pandas.DataFrame" then
        match argument 0 "data" args kw with
        | Some data => DataFrame data s
        | None => Exc TypeError s
        end
      else if String.eqb name "message_ix.utils.make_df" then
        match args with
        | [base] => make_df base kw s
        | _ => Exc TypeError s
        end
      else platform_call None name args kw s
  | VMethod (VRef h) m => platform_call (Some h) m args kw s
  | VMethod (VDict items) "keys" => Ok (VList (map VStr (keys items))) s
  | VMethod (VSeries vs) "tolist" | VMethod (VArray vs) "tolist" => Ok (VList vs) s
  | _ => Exc TypeError s
  end.

(** ** Evaluation *)

Fixpoint eval (e : expr) (s : state) {struct e} : result value :=
  let fix eval_list (es : list expr) (s : state) : result (list value) :=
    match es with
    | [] => Ok [] s
    | e :: rest =>
        do v, s1 <- eval e s;
        do vs, s2 <- eval_list rest s1;
        Ok (v :: vs) s2
    end in
  let fix eval_items (kes : list (string * expr)) (s : state)
      : result (list (string * value)) :=
    match kes with
    | [] => Ok [] s
    | (k, e) :: rest =>
        do v, s1 <- eval e s;
        do kvs, s2 <- eval_items rest s1;
        Ok ((k, v) :: kvs) s2
    end in
  match e with
  | Constant v => Ok v s
  | Name id =>
      match lookup id (vars s) with
      | Some v => Ok v s
      | None => Exc (NameError id) s
      end
  | List elts => do vs, s1 <- eval_list elts s; Ok (VList vs) s1
  | Tuple elts => do vs, s1 <- eval_list elts s; Ok (VTuple vs) s1
  | Dict items =>
      do kvs, s1 <- eval_items items s;
      Ok (VDict (fold_left (fun acc kv => update (fst kv) (snd kv) acc) kvs [])) s1
  | Subscript e index =>
      do v, s1 <- eval e s;
      do i, s2 <- eval index s1;
      subscript v i s2
  | Attribute e attr => do v, s1 <- eval e s; getattr v attr s1
  | Call func args keywords =>
      do f, s1 <- eval func s;
      do vs, s2 <- eval_list args s1;
      do kvs, s3 <- eval_items keywords s2;
      apply f vs kvs s3
  end.

Fixpoint assign (targets : list string) (vs : list value) (s : state) : result unit :=
  match targets, vs with
  | [], [] => Ok tt s
  | x :: targets', v :: vs' => assign targets' vs' (set_var x v s)
  | _, _ => Exc ValueError s
  end.

(** [fuel] bounds the iterations of each [while]. *)
Fixpoint exec (fuel : nat) (st : stmt) (s : state) {struct st} : result unit :=
  let fix exec_block (b : list stmt) (s : state) : result unit :=
    match b with
    | [] => Ok tt s
    | st :: rest => do _u, s1 <- exec fuel st s; exec_block rest s1
    end in
  match st with
  | Import m asname =>
      match lookup m modules with
      | Some _ =>
          Ok tt (set_var (match asname with Some a => a | None => m end) (VModule m) s)
      | None => Exc (ImportError m) s
      end
  | ImportFrom m name =>
      if member m name then Ok tt (set_var name (VFunction (qualified m name)) s)
      else Exc (ImportError m) s
  | Magic _ => Ok tt s
  | Assign [x] e => do v, s1 <- eval e s; Ok tt (set_var x v s1)
  | Assign targets e =>
      do v, s1 <- eval e s;
      match elements v with
      | Some vs => assign targets vs s1
      | None => Exc TypeError s1
      end
  | Expr e => do _v, s1 <- eval e s; Ok tt s1
  | For x iter body =>
      do v, s1 <- eval iter s;
      match elements v with
      | Some vs =>
          (fix loop (vs : list value) (s : state) : result unit :=
             match vs with
             | [] => Ok tt s
             | v :: rest =>
                 do _u, s' <- exec_block body (set_var x v s);
                 loop rest s'
             end) vs s1
      | None => Exc TypeError s1
      end
  | If test body orelse =>
      do v, s1 <- eval test s;
      if truthy v then exec_block body s1 else exec_block orelse s1
  | While test body =>
      (fix loop (n : nat) (s : state) : result unit :=
         match n with
         | O => OutOfFuel
         | S n' =>
             do v, s1 <- eval test s;
             if truthy v
             then do _u, s2 <- exec_block body s1; loop n' s2
             else Ok tt s1
         end) fuel s
  | Try body handler =>
      match exec_block body s with
      | Exc _ s' => exec_block handler s'
      | r => r
      end
  | Raise exc => do v, s1 <- eval exc s; Exc (Raised v) s1
  | ClassDef name _ body =>
      do _u, s1 <- exec_block body s;
      Ok tt (set_var name (VFunction name) s1)
  end.

Fixpoint exec_block (fuel : nat) (b : list stmt) (s : state) : result unit :=
  match b with
  | [] => Ok tt s
  | st :: rest => do _u, s1 <- exec fuel st s; exec_block fuel rest s1
  end.

(** The cells run top to bottom; the first exception ends the run. *)
Fixpoint run_cells (fuel : nat) (cells : list cell) (s : state) : result unit :=
  match cells with
  | [] => Ok tt s
  | Markdown _ :: rest => run_cells fuel rest s
  | Code source :: rest =>
      do _u, s1 <- exec_block fuel source s; run_cells fuel rest s1
  end.
End Platform.

Definition start (db0 : database) : state :=
  {| vars := []; heap := []; db := db0; log := [] |}.

(** ** Syntactic checks *)

Fixpoint stmt_any (p : stmt -> bool) (st : stmt) {struct st} : bool :=
  let block_any := existsb (stmt_any p) in
  p st ||
  match st with
  | For _ _ body | While _ body | ClassDef _ _ body => block_any body
  | If _ body orelse | Try body orelse => block_any body || block_any orelse
  | _ => false
  end.

Definition block_any (p : stmt -> bool) (b : list stmt) : bool :=
  existsb (stmt_any p) b.

(** The statements of a block, nested ones included, that satisfy [p]. *)
Fixpoint stmt_collect (p : stmt -> bool) (st : stmt) {struct st} : list stmt :=
let block_collect := flat_map (stmt_collect p) in
(if p st then [st] else []) ++
match st with
| For _ _ body | While _ body | ClassDef _ _ body => block_collect body
| If _ body orelse | Try body orelse => block_collect body ++ block_collect orelse
| _ => []
end.

Definition cells_collect (p : stmt -> bool) (cells : list cell) : list stmt :=
flat_map (fun c => match c with
                   | Code source => flat_map (stmt_collect p) source
                   | Markdown _ => []
                   end) cells.

Definition cells_any (p : stmt -> bool) (cells : list cell) : bool :=
  existsb (fun c => match c with
                    | Code source => block_any p source
                    | Markdown _ => false
                    end) cells.

Definition is_if (st : stmt) : bool := match st with If _ _ _ => true | _ => false end.
Definition is_while (st : stmt) : bool := match st with While _ _ => true | _ => false end.
Definition is_try (st : stmt) : bool := match st with Try _ _ => true | _ => false end.
Definition is_raise (st : stmt) : bool := match st with Raise _ => true | _ => false end.
Definition is_class (st : stmt) : bool := match st with ClassDef _ _ _ => true | _ => false end.
Definition is_for (st : stmt) : bool := match st with For _ _ _ => true | _ => false end.

End Python.

(** * The notebook [westeros_fossil_resource.ipynb] *)

Module Notebook.
Import Python.

Definition str (x : string) : expr := Constant (VStr x).
Definition num (n : Z) : expr := Constant (VInt n).
Definition call (f : expr) (args : list expr) : expr := Call f args [].
Definition dot (obj : string) (m : string) : expr := Attribute (Name obj) m.

Definition cell_1 : list stmt :=
  [Import "pandas" (Some "pd");
   Import "ixmp" None;
   Import "message_ix" None;
   ImportFrom "message_ix.utils" "make_df";
   Magic "matplotlib inline"].

Definition cell_2 : list stmt :=
  [Assign ["mp"] (call (dot "ixmp" "Platform") [])].

Definition cell_4 : list stmt :=
  [Assign ["model"] (str "Westeros Electrified");
   Assign ["base"]
     (Call (dot "message_ix" "Scenario") [Name "mp"]
           [("model", Name "model"); ("scenario", str "baseline")]);
   Assign ["scen"]
     (Call (dot "base" "clone")
           [Name "model"; str "fossil_resources";
            str "illustration of adding fossil resources"]
           [("keep_solution", Constant (VBool false))]);
   Expr (call (dot "scen" "check_out") [])].

Definition cell_7 : list stmt :=
  [Assign ["commodity"] (str "coal");
   Assign ["level"] (str "resource");
   Expr (call (dot "scen" "add_set") [str "commodity"; Name "commodity"]);
   Expr (call (dot "scen" "add_set") [str "level"; Name "level"]);
   Expr (call (dot "scen" "add_set") [str "level_resource"; Name "level"]);
   Expr (call (dot "scen" "add_set") [str "grade"; List [str "a"; str "b"]])].

Definition cell_9 : list stmt :=
  [Assign ["year_df"] (call (dot "scen" "vintage_and_active_years") []);
   Assign ["vintage_years"; "act_years"]
     (Tuple [Subscript (Name "year_df") (str "year_vtg");
             Subscript (Name "year_df") (str "year_act")]);
   Assign ["model_horizon"] (call (dot "scen" "set") [str "year"]);
   Assign ["country"] (str "Westeros")].

Definition cell_10 : list stmt :=
  [Assign ["potentials"]
     (Dict [("a", List [num 1500; num 10; num 280]);
            ("b", List [num 3500; num 52; num 0])])].

Definition potential (i : Z) : expr :=
  Subscript (Subscript (Name "potentials") (Name "grade")) (num i).

Definition cell_11 : list stmt :=
  [For "grade" (call (dot "potentials" "keys") [])
     [Assign ["df"]
        (call (dot "pd" "DataFrame")
           [Dict [("node", List [Name "country"]);
                  ("commodity", Name "commodity");
                  ("grade", Name "grade");
                  ("value", potential 0);
                  ("unit", str "GWa")]]);
      Expr (call (dot "scen" "add_par") [str "resource_volume"; Name "df"]);
      Assign ["df"]
        (call (dot "pd" "DataFrame")
           [Dict [("node", Name "country");
                  ("commodity", Name "commodity");
                  ("grade", Name "grade");
                  ("year", call (Attribute (dot "model_horizon" "values") "tolist") []);
                  ("value", potential 1);
                  ("unit", str "USD/kWa")]]);
      Expr (call (dot "scen" "add_par") [str "resource_cost"; Name "df"]);
      Assign ["df"]
        (call (dot "pd" "DataFrame")
           [Dict [("node", Name "country");
                  ("commodity", Name "commodity");
                  ("grade", Name "grade");
                  ("year", List [num 690]);
                  ("value", potential 2);
                  ("unit", str "GWa")]]);
      Expr (call (dot "scen" "add_par") [str "historical_extraction"; Name "df"])]].

Definition base_input : expr :=
  Dict [("node_loc", Name "country");
        ("year_vtg", Name "vintage_years");
        ("year_act", Name "act_years");
        ("mode", str "standard");
        ("node_origin", Name "country");
        ("commodity", str "electricity");
        ("time", str "year");
        ("time_origin", str "year")].

Definition cell_13 : list stmt :=
  [Assign ["base_input"] base_input;
   Assign ["df"]
     (Call (Name "make_df") [Name "base_input"]
           [("technology", str "coal_ppl"); ("commodity", str "coal");
            ("level", str "resource"); ("value", num 1); ("unit", str "%")]);
   Expr (call (dot "scen" "add_par") [str "input"; Name "df"])].

Definition cell_15 : list stmt :=
  [Expr (Call (dot "scen" "commit") [] [("comment", str "added coal resources")]);
   Expr (call (dot "scen" "set_as_default") [])].

Definition cell_16 : list stmt :=
  [Expr (call (dot "scen" "solve") [])].

Definition cell_17 : list stmt :=
  [Expr (Subscript (call (dot "scen" "var") [str "OBJ"]) (str "lvl"))].

Definition cell_19 : list stmt :=
  [ImportFrom "tools" "Plots";
   Assign ["b"] (Call (Name "Plots") [Name "base"; Name "country"] [("firstyear", num 700)]);
   Assign ["p"] (Call (Name "Plots") [Name "scen"; Name "country"] [("firstyear", num 700)])].

Definition plants : expr := List [str "coal_ppl"; str "wind_ppl"].
Definition yes : expr := Constant (VBool true).

Definition plot (obj m : string) (kw : list (string * expr)) : list stmt :=
  [Expr (Call (dot obj m) [] kw)].

Definition cells : list cell :=
  [Markdown "# Westeros Tutorial Part 3a- Adding fossil resources (i)";
   Code cell_1;
   Code cell_2;
   Markdown "## Making a clone of the existing scenario '*baseline*'";
   Code cell_4;
   Markdown "## Resource potentials in MESSAGEix";
   Markdown "### 1. Defining level, grade, and commodity";
   Code cell_7;
   Markdown "### 2. Setting up parameters";
   Code cell_9;
   Code cell_10;
   Code cell_11;
   Markdown "### 3. Linking `coal_ppl` to resources through `input` parameter";
   Code cell_13;
   Markdown "### Commit and solve";
   Code cell_15;
   Code cell_16;
   Code cell_17;
   Markdown "# Plotting Results";
   Code cell_19;
   Markdown "## Activity";
   Markdown "### Scenario: '*baseline*'";
   Code (plot "b" "plot_activity" [("baseyear", yes); ("subset", plants)]);
   Markdown "### Scenario: '*fossil_resource*'";
   Code (plot "p" "plot_activity" [("baseyear", yes); ("subset", plants)]);
   Markdown "## Capacity";
   Markdown "### Scenario: '*baseline*'";
   Code (plot "b" "plot_capacity" [("baseyear", yes); ("subset", plants)]);
   Markdown "### Scenario: '*fossil_resource*'";
   Code (plot "p" "plot_capacity" [("baseyear", yes); ("subset", plants)]);
   Markdown "## Prices";
   Markdown "### Scenario: '*baseline*'";
   Code (plot "b" "plot_prices" [("subset", List [str "light"]); ("baseyear", yes)]);
   Markdown "### Scenario: '*fossil_resource*'";
   Code (plot "p" "plot_prices" [("subset", List [str "light"]); ("baseyear", yes)]);
   Markdown "## Extraction";
   Markdown "### Scenario: '*fossil_resource*'";
   Markdown "### Coal supply curve";
   Code (plot "p" "plot_fossil_supply_curve" []);
   Markdown "### Coal extraction";
   Code (plot "p" "plot_extraction"
           [("subset", List [str "coal"]); ("baseyear", yes); ("bygrade", yes)]);
   Code [Expr (call (dot "mp" "close_db") [])]].

(** One run of the notebook, top to bottom, on a platform that answers
    as [P] says and holds [db0]; [fuel] bounds the iterations of a [while]. *)
Definition run (fuel : nat) (P : answers) (db0 : database) : result unit :=
  run_cells P fuel cells (start db0).

Definition final_state (r : result unit) : option state :=
  match r with
  | Ok _ s | Exc _ s => Some s
  | OutOfFuel => None
  end.

(** ** Names used by the statements *)

(** The calls a run made into the platform, in order; the call that raised,
    if one did, is the last. *)
Definition calls (r : result unit) : list event :=
match r with
| Ok _ s | Exc _ s => log s
| OutOfFuel => []
end.

Definition names (r : result unit) : list string := map callee (calls r).

(** The calls of a run in which no call raises. *)
Definition call_sequence : list string :=
["ixmp.Platform"; "message_ix.Scenario"; "clone"; "check_out";
 "add_set"; "add_set"; "add_set"; "add_set";
 "vintage_and_active_years"; "set";
 "add_par"; "add_par"; "add_par"; "add_par"; "add_par"; "add_par"; "add_par";
 "commit"; "set_as_default"; "solve"; "var";
 "tools.Plots"; "tools.Plots";
 "plot_activity"; "plot_activity"; "plot_capacity"; "plot_capacity";
 "plot_prices"; "plot_prices"; "plot_fossil_supply_curve"; "plot_extraction";
 "close_db"].

Definition ncalls : nat := length call_sequence.

Definition named (f : string) : string -> bool := String.eqb f.

Definition plotting (f : string) : bool :=
String.eqb f "tools.Plots" || existsb (String.eqb f) plot_methods.

(** The seven stages of the notebook; a call of no stage (a query, the
    check-out, closing the connection) has none. *)
Definition phase (f : string) : list nat :=
if named "ixmp.Platform" f then [0]
else if named "clone" f then [1]
else if named "add_set" f then [2]
else if named "add_par" f then [3]
else if named "commit" f then [4]
else if named "solve" f then [5]
else if plotting f then [6]
else [].

Definition phases (l : list string) : list nat := flat_map phase l.

(** Every call of kind [a] comes before every call of kind [b]. *)
Definition before (a b : string -> bool) (l : list string) : Prop :=
forall i j x y,
  nth_error l i = Some x -> nth_error l j = Some y ->
  a x = true -> b y = true -> i < j.

Fixpoint beforeb (a b : string -> bool) (l : list string) : bool :=
match l with
| [] => true
| x :: rest => (negb (b x) || negb (existsb a l)) && beforeb a b rest
end.

Fixpoint sortedb (l : list nat) : bool :=
match l with
| [] => true
| x :: rest => forallb (Nat.leb x) rest && sortedb rest
end.

(** The first of the first [n] calls that raises. *)
Fixpoint first_failure (l : list bool) (n : nat) {struct n} : option nat :=
match n, l with
| S n', false :: l' => option_map S (first_failure l' n')
| S _, true :: _ => Some 0
| _, _ => None
end.

Definition fail_at (o : option nat) : list bool :=
match o with
| Some k => repeat false k ++ [true]
| None => []
end.

Definition with_fails (P : answers) (l : list bool) : answers :=
{| fails := l; years := years P; horizon := horizon P; objective := objective P |}.

Definition raises (P : answers) (n : nat) : bool := nth n (fails P) false.

(** The scenarios and the objects holding them. *)
Definition baseline : key := ("Westeros Electrified", "baseline").
Definition fossil_resources : key := ("Westeros Electrified", "fossil_resources").

Definition handle (x : string) (s : state) : option nat :=
match lookup x (vars s) with
| Some (VRef h) => Some h
| _ => None
end.

Definition scenario_at (s : state) (h : nat) : option key :=
match nth_error (heap s) h with
| Some (AScenario model scenario) => Some (model, scenario)
| _ => None
end.

Definition writes (f : string) : bool :=
existsb (String.eqb f)
  ["check_out"; "add_set"; "add_par"; "commit"; "set_as_default"; "solve"].

Definition is_ref (h : nat) (v : value) : bool :=
match v with
| VRef h' => Nat.eqb h h'
| _ => false
end.

Definition passes (h : nat) (e : event) : bool :=
existsb (is_ref h) (args e) || existsb (fun kv => is_ref h (snd kv)) (kwargs e).

Definition on_object (h : option nat) (e : event) : bool :=
match h, target e with
| Some a, Some b => Nat.eqb a b
| _, _ => false
end.

(** The records handed to [add_par]: the parameter and the frame. *)
Definition submitted (r : result unit) : list (string * value) :=
flat_map (fun e => if named "add_par" (callee e)
                   then match args e with
                        | [VStr name; v] => [(name, v)]
                        | _ => []
                        end
                   else []) (calls r).

Definition add_par_calls (r : result unit) : nat :=
length (filter (fun e => named "add_par" (callee e)) (calls r)).

Definition flat_columns : list string :=
["node"; "commodity"; "grade"; "year"; "value"; "unit"].

Definition input_columns : list string :=
["node_loc"; "year_vtg"; "year_act"; "mode"; "node_origin"; "commodity"; "time";
 "time_origin"; "technology"; "level"; "value"; "unit"].

Definition columns_of (v : value) : option (list string) :=
match v with
| VFrame columns => Some (keys columns)
| _ => None
end.

Definition within (allowed : list string) (v : value) : bool :=
match columns_of v with
| Some cs => forallb (fun c => existsb (String.eqb c) allowed) cs
| None => false
end.

(** The head of each loop of the notebook: its variable and what it
    iterates over. *)
Definition loop_heads : list (option (string * expr)) :=
map (fun st => match st with
               | For x iter _ => Some (x, iter)
               | _ => None
               end) (cells_collect (fun st => is_for st || is_while st) cells).

(** A platform on which no call raises, with the periods of the Westeros
    baseline. *)
Definition quiet : answers :=
{| fails := [];
   years := [(700, 700); (700, 710); (700, 720); (710, 710); (710, 720); (720, 720)]%Z;
   horizon := [VInt 700; VInt 710; VInt 720];
   objective := VInt 0 |}.

Definition kept_fields : list string :=
["node_loc"; "year_vtg"; "year_act"; "mode"; "node_origin"; "time"; "time_origin"].

(** *** How a run ends

    [outcome_shape o r]: with [o] the first call that raises, the run [r]
    ends in that call's exception, having made the calls up to it; with no
    such call it ends normally, having made them all. *)
Definition outcome_shape (o : option nat) (r : result unit) : Prop :=
match o, r with
| Some k, Exc (PlatformError j) s =>
    j = k /\ map callee (log s) = firstn (S k) call_sequence
| None, Ok _ s => map callee (log s) = call_sequence
| _, _ => False
end.

(** What holds of every prefix of the sequence of calls. *)
Definition in_order (l : list string) : bool :=
sortedb (phases l) &&
beforeb (named "ixmp.Platform") (named "clone") l &&
beforeb (named "clone") (named "add_set") l &&
beforeb (named "add_set") (named "add_par") l &&
beforeb (fun f => named "add_set" f || named "add_par" f) (named "commit") l &&
beforeb (named "commit") (named "solve") l &&
beforeb (named "solve") plotting l.

(** *** The baseline scenario *)

(** The clone call of the notebook: a scenario named fossil_resources, made
    without the solution. *)
Definition clones_without_solution (e : event) : bool :=
named "clone" (callee e) &&
match nth_error (args e) 1, lookup "keep_solution" (kwargs e) with
| Some (VStr scenario), Some (VBool false) => String.eqb scenario "fossil_resources"
| _, _ => false
end.

Definition holds_scenario (s : state) (x : string) (k : key) : bool :=
match handle x s with
| Some h => match scenario_at s h with
            | Some k' => key_eqb k k'
            | None => false
            end
| None => true
end.

Definition distinct_objects (s : state) (x y : string) : bool :=
match handle x s, handle y s with
| Some a, Some b => negb (Nat.eqb a b)
| _, _ => true
end.

Definition base_passed_to (s : state) (e : event) : bool :=
match handle "base" s with
| Some h => passes h e
| None => false
end.

Definition frame_ok (s : state) : bool :=
forallb (fun e => implb (writes (callee e)) (on_object (handle "scen" s) e)) (log s) &&
forallb (fun e => implb (on_object (handle "base" s) e) (clones_without_solution e)) (log s) &&
forallb (fun e => implb (base_passed_to s e) (named "tools.Plots" (callee e))) (log s) &&
holds_scenario s "base" baseline &&
holds_scenario s "scen" fossil_resources &&
distinct_objects s "base" "scen".

Definition frame_kept (db0 : database) (r : result unit) : Prop :=
match final_state r with
| Some s => db_get baseline (db s) = db_get baseline db0 /\ frame_ok s = true
| None => False
end.

(** *** The submitted records *)

Fixpoint strings_eqb (a b : list string) : bool :=
match a, b with
| [], [] => true
| x :: a', y :: b' => String.eqb x y && strings_eqb a' b'
| _, _ => false
end.

Definition resource_parameters : list string :=
["resource_volume"; "resource_cost"; "historical_extraction"].

Definition has_columns (cs : list string) (v : value) : bool :=
match columns_of v with
| Some cs' => strings_eqb cs' cs
| None => false
end.

Definition record_ok (nv : string * value) : bool :=
(existsb (String.eqb (fst nv)) resource_parameters && within flat_columns (snd nv)) ||
(named "input" (fst nv) && has_columns input_columns (snd nv)).

(** The frames submitted for the parameter [input]. *)
Definition inputs (r : result unit) : list value :=
flat_map (fun nv => if named "input" (fst nv) then [snd nv] else []) (submitted r).

Definition defined (f : string) (items : list (string * value)) : bool :=
match lookup f items with
| Some _ => true
| None => false
end.

(** [overrides columns items]: the frame [columns] made from the dict
    [items] by the call of cell 13. *)
Definition overrides (columns items : list (string * value)) : Prop :=
lookup "commodity" items = Some (VStr "electricity") /\
lookup "commodity" columns = Some (VStr "coal") /\
lookup "level" columns = Some (VStr "resource") /\
lookup "value" columns = Some (VInt 1) /\
lookup "unit" columns = Some (VStr "%") /\
map (fun f => lookup f columns) kept_fields = map (fun f => lookup f items) kept_fields /\
forallb (fun f => defined f items) kept_fields = true.

Definition input_frame_ok (r : result unit) : Prop :=
match final_state r with
| Some s =>
    match inputs r with
    | [] => True
    | [VFrame columns] =>
        match lookup "base_input" (vars s) with
        | Some (VDict items) => overrides columns items
        | _ => False
        end
    | _ => False
    end
| None => False
end.

(** *** Calls that returned, and what they left

    The call that raised is the last of the log; the calls before it
    returned. *)
Definition returned_calls (r : result unit) : list event :=
  match r with
  | Ok _ s => log s
  | Exc (PlatformError _) s => removelast (log s)
  | Exc _ s => log s
  | OutOfFuel => []
  end.

Definition returned (f : string) (r : result unit) : bool :=
  existsb (fun e => named f (callee e)) (returned_calls r).

(** The (name, value) pairs of the calls of [f] that returned. *)
Definition accepted (f : string) (r : result unit) : list (string * value) :=
  flat_map (fun e => if named f (callee e)
                     then match args e with
                          | [VStr name; v] => [(name, v)]
                          | _ => []
                          end
                     else []) (returned_calls r).

(** *** The columns of the submitted frames *)

(** The column [col] of each frame submitted for the parameter [name]. *)
Definition column_values (name col : string) (r : result unit) : list (option value) :=
  flat_map (fun nv => if named name (fst nv)
                      then [match snd nv with
                            | VFrame columns => lookup col columns
                            | _ => None
                            end]
                      else []) (submitted r).

Definition vintage (P : answers) : value := VSeries (map (fun p => VInt (fst p)) (years P)).
Definition active (P : answers) : value := VSeries (map (fun p => VInt (snd p)) (years P)).

Definition all_are {A : Type} (x : A) (l : list A) : Prop := l = repeat x (length l).

Definition years_flow (P : answers) (r : result unit) : Prop :=
  all_are (Some (VList (horizon P))) (column_values "resource_cost" "year" r) /\
  all_are (Some (VList [VInt 690])) (column_values "historical_extraction" "year" r) /\
  all_are None (column_values "resource_volume" "year" r) /\
  all_are (Some (vintage P)) (column_values "input" "year_vtg" r) /\
  all_are (Some (active P)) (column_values "input" "year_act" r).

(** The dict of cell 10, read off the cell. *)
Definition ints (e : expr) : list Z :=
  match e with
  | List elts => flat_map (fun x => match x with
                                    | Constant (VInt n) => [n]
                                    | _ => []
                                    end) elts
  | _ => []
  end.

Definition potentials : list (string * list Z) :=
  match cell_10 with
  | [Assign _ (Dict items)] => map (fun kv => (fst kv, ints (snd kv))) items
  | _ => []
  end.

(** A submitted record in short: its parameter, its grade and its value. *)
Definition brief (nv : string * value) : string * option value * option value :=
  match snd nv with
  | VFrame columns => (fst nv, lookup "grade" columns, lookup "value" columns)
  | _ => (fst nv, None, None)
  end.

Definition of_grade (g : string * list Z) : list (string * option value * option value) :=
  [("resource_volume", Some (VStr (fst g)), option_map VInt (nth_error (snd g) 0));
   ("resource_cost", Some (VStr (fst g)), option_map VInt (nth_error (snd g) 1));
   ("historical_extraction", Some (VStr (fst g)), option_map VInt (nth_error (snd g) 2))].

Definition expected_records : list (string * option value * option value) :=
  (flat_map of_grade potentials ++ [("input", None, Some (VInt 1))])%list.

Definition closes (r : result unit) : bool := existsb (named "close_db") (names r).

Definition none_before (n : nat) (l : list bool) : bool :=
  match first_failure l n with
  | None => true
  | Some _ => false
  end.

(** *** Names the records use *)

Definition members (v : value) : list value :=
  match v with
  | VList vs => vs
  | _ => [v]
  end.

(** The members the returned add_set calls gave to the set [name]. *)
Definition declared (name : string) (r : result unit) : list value :=
  flat_map (fun nv => if named name (fst nv) then members (snd nv) else [])
    (accepted "add_set" r).

(** The values of the column [col] in the submitted frames that have it. *)
Definition mentioned (col : string) (r : result unit) : list value :=
  flat_map (fun nv => match snd nv with
                      | VFrame columns => match lookup col columns with
                                          | Some v => [v]
                                          | None => []
                                          end
                      | _ => []
                      end) (submitted r).

Definition same_name (v w : value) : bool :=
  match v, w with
  | VStr a, VStr b => String.eqb a b
  | _, _ => false
  end.

Definition all_declared (col : string) (r : result unit) : bool :=
  forallb (fun x => existsb (same_name x) (declared col r)) (mentioned col r).

End Notebook.

(** * Properties of the workflow *)

Module CI.
Import Workflow.

Lemma expand_pytest :
  expand (strategy pytest) =
  [pair_of "macos-latest" "3.6"; pair_of "macos-latest" "3.8";
   pair_of "ubuntu-latest" "3.6"; pair_of "ubuntu-latest" "3.8";
   pair_of "windows-latest" "3.8"].
Proof. reflexivity. Qed.

Lemma pair_of_inj os py os' py' : pair_of os py = pair_of os' py' -> os = os' /\ py = py'.
Proof. unfold pair_of. intros H. injection H as -> ->. split; reflexivity. Qed.

(** ** General facts about [run_steps] *)

Lemma executed_eq w j c exit_code :
  executed w j c exit_code = trace (env w) c exit_code 0 true (steps j).
Proof. reflexivity. Qed.

Lemma concluded_eq w j c exit_code :
  concluded w j c exit_code =
  if final (env w) c exit_code 0 true (steps j) then Success else Failure.
Proof. reflexivity. Qed.

Section RunFacts.
Variable envc : list (string * string).
Variable c : combo.
Variable exit_code : nat -> Z.

#[local] Abbreviation trace := (Workflow.trace envc c exit_code).
#[local] Abbreviation final := (Workflow.final envc c exit_code).

Lemma trace_cons i ok s rest :
  trace i ok (s :: rest) =
  if should_run envc c ok s
  then i :: trace (S i) ((exit_code i =? 0)%Z || masked s) rest
  else trace (S i) ok rest.
Proof.
  unfold trace. simpl. destruct (should_run envc c ok s); [|reflexivity].
  destruct (run_steps envc c exit_code (S i) _ rest). reflexivity.
Qed.

Lemma final_cons i ok s rest :
  final i ok (s :: rest) =
  if should_run envc c ok s
  then final (S i) ((exit_code i =? 0)%Z || masked s) rest
  else final (S i) ok rest.
Proof.
  unfold final. simpl. destruct (should_run envc c ok s); [|reflexivity].
  destruct (run_steps envc c exit_code (S i) _ rest). reflexivity.
Qed.

Lemma nothing_runs_after_failure ss : forall i, trace i false ss = [].
Proof.
  induction ss as [|s rest IH]; intros i; [reflexivity|].
  rewrite trace_cons. simpl. apply IH.
Qed.

Lemma failure_is_final ss : forall i, final i false ss = false.
Proof.
  induction ss as [|s rest IH]; intros i; [reflexivity|].
  rewrite final_cons. simpl. apply IH.
Qed.

Lemma trace_bounds ss : forall i ok k,
  In k (trace i ok ss) -> i <= k < i + length ss.
Proof.
  induction ss as [|s rest IH]; intros i ok k.
  - intros [].
  - rewrite trace_cons. destruct (should_run envc c ok s); simpl.
    + intros [<- | H]; [lia|]. apply IH in H. lia.
    + intros H. apply IH in H. lia.
Qed.

Lemma trace_sorted ss : forall i ok, StronglySorted lt (trace i ok ss).
Proof.
  induction ss as [|s rest IH]; intros i ok.
  - constructor.
  - rewrite trace_cons. destruct (should_run envc c ok s); [|apply IH].
    constructor; [apply IH|].
    apply Forall_forall. intros k H. apply trace_bounds in H. lia.
Qed.

(** A step that ran saw every earlier unconditional step run and
    succeed (or be forgiven by [continue-on-error]). *)
Lemma trace_prior ss : forall i ok k,
  In k (trace i ok ss) ->
  forall j s, i <= j < k -> nth_error ss (j - i) = Some s -> if_ s = None ->
  In j (trace i ok ss) /\ (exit_code j = 0%Z \/ masked s = true).
Proof.
  induction ss as [|s0 rest IH]; intros i ok k.
  - intros [].
  - rewrite trace_cons. intros Hk j s Hj Hnth Hif.
    destruct ok.
    2:{ simpl in Hk. rewrite nothing_runs_after_failure in Hk. destruct Hk. }
    destruct (Nat.eq_dec j i) as [->|Hne].
    + rewrite Nat.sub_diag in Hnth. simpl in Hnth. injection Hnth as ->.
      unfold should_run in *. rewrite Hif in *. simpl in *.
      split; [left; reflexivity|].
      destruct Hk as [->|Hk]; [lia|].
      destruct ((exit_code i =? 0)%Z) eqn:E.
      * left. apply Z.eqb_eq. exact E.
      * destruct (masked s); [right; reflexivity|].
        simpl in Hk. rewrite nothing_runs_after_failure in Hk. destruct Hk.
    + assert (Hnth' : nth_error rest (j - S i) = Some s).
      { replace (j - i) with (S (j - S i)) in Hnth by lia. exact Hnth. }
      destruct (should_run envc c true s0); simpl in *.
      * destruct Hk as [->|Hk]; [lia|].
        destruct (IH _ _ _ Hk j s ltac:(lia) Hnth' Hif) as [H1 H2].
        split; [right; exact H1 | exact H2].
      * apply (IH _ _ _ Hk j s ltac:(lia) Hnth' Hif).
Qed.

(** Without [continue-on-error] the job succeeds exactly when every
    step that ran exited zero. *)
Lemma final_unmasked ss : forall i ok,
  forallb (fun s => negb (masked s)) ss = true ->
  final i ok ss = ok && forallb (fun k => (exit_code k =? 0)%Z) (trace i ok ss).
Proof.
  induction ss as [|s rest IH]; intros i ok.
  - intros _. unfold final, trace. simpl. rewrite andb_true_r. reflexivity.
  - intros H. simpl in H. apply andb_true_iff in H as [Hs Hrest].
    apply negb_true_iff in Hs.
    rewrite final_cons, trace_cons.
    destruct ok; simpl.
    2:{ apply (failure_is_final rest). }
    destruct (match if_ s with Some cnd => holds envc c cnd | None => true end); simpl.
    + rewrite Hs, orb_false_r. rewrite (IH _ _ Hrest).
      destruct ((exit_code i =? 0)%Z); reflexivity.
    + rewrite (IH _ _ Hrest). reflexivity.
Qed.
End RunFacts.

(** ** The matrix *)

(** C3, as stated, fails: windows-latest is one of the operating systems
    and 3.6 one of the Python versions, and no job is generated for the
    pair. *)
Lemma matrix_not_full_product :
  In "windows-latest" oses /\ In "3.6" pythons /\
  ~ In (pair_of "windows-latest" "3.6") (expand (strategy pytest)).
Proof.
split; [simpl; auto|]. split; [simpl; auto|].
rewrite expand_pytest. simpl. intros H.
repeat destruct H as [H|H]; try discriminate H; exact H.
Qed.

(** C3 (amended): the axes of the matrix are the three operating systems
    and the two Python versions, and a job is generated for a pair of the
    product exactly when the pair is not (windows-latest, 3.6). *)
Theorem matrix_jobs :
  matrix (strategy pytest) = [("os", oses); ("python-version", pythons)] /\
  forall os py,
    In (pair_of os py) (expand (strategy pytest)) <->
    (In os oses /\ In py pythons /\ ~ (os = "windows-latest" /\ py = "3.6")).
Proof.
  split; [reflexivity|].
  intros os py. rewrite expand_pytest. split.
  - simpl. intros H.
    repeat destruct H as [H|H]; try contradiction;
      symmetry in H; apply pair_of_inj in H as [-> ->];
      (split; [auto 10 | split; [auto 10 | intros [? ?]; discriminate]]).
  - intros (Hos & Hpy & Hne). simpl in Hos, Hpy.
    repeat destruct Hos as [Hos|Hos]; try contradiction; subst os;
      repeat destruct Hpy as [Hpy|Hpy]; try contradiction; subst py;
      simpl; auto 10.
Qed.

(** C8: the matrix excludes the one combination (windows-latest, 3.6), so
    5 of the 6 pairs of the product produce jobs; fail-fast is false, and
    so no job of the matrix is cancelled because another one failed,
    whatever the jobs' outcomes.  (With the key absent, the failure of one
    job could cancel another.) *)
Theorem matrix_exclude_and_fail_fast :
  exclude (strategy pytest) = [pair_of "windows-latest" "3.6"] /\
  length (product (matrix (strategy pytest))) = 6 /\
  length (expand (strategy pytest)) = 5 /\
  (forall c, In c (product (matrix (strategy pytest))) ->
     (In c (expand (strategy pytest)) <-> c <> pair_of "windows-latest" "3.6")) /\
  fail_fast (strategy pytest) = Some false /\
  (forall results c, may_be_cancelled (strategy pytest) results c = false) /\
  (forall results,
     results (pair_of "ubuntu-latest" "3.8") = Failure ->
     may_be_cancelled (with_fail_fast (strategy pytest) None) results
       (pair_of "macos-latest" "3.6") = true).
Proof.
  split; [reflexivity|]. split; [reflexivity|]. split; [reflexivity|].
  split; [|split; [reflexivity|]].
  - intros c Hc. rewrite expand_pytest. simpl in Hc.
    repeat destruct Hc as [Hc|Hc]; try contradiction; subst c; split; intros H;
      first [ discriminate
            | solve [simpl; auto 10]
            | exfalso; apply H; reflexivity
            | exfalso; simpl in H;
              repeat destruct H as [H|H]; try discriminate H; exact H ].
  - split; [intros results c; reflexivity|].
    intros results H. unfold pair_of in H. vm_compute. rewrite H.
    repeat match goal with
           | |- context [results ?c] => destruct (results c)
           end; reflexivity.
Qed.

(** ** The order of the steps *)

Lemma position_from_nth n ss : forall i k,
  position_from i n ss = Some k ->
  i <= k /\ exists s, nth_error ss (k - i) = Some s /\ opt_is (name s) n = true.
Proof.
  induction ss as [|s rest IH]; intros i k; simpl; [discriminate|].
  destruct (opt_is (name s) n) eqn:E.
  - intros [= <-]. split; [lia|]. rewrite Nat.sub_diag. exists s. auto.
  - intros H. apply IH in H as (Hle & s' & Hnth & Hn).
    split; [lia|]. exists s'. split; [|exact Hn].
    replace (k - i) with (S (k - S i)) by lia. exact Hnth.
Qed.

Lemma pytest_steps_unconditional_but_java s :
  In s (steps pytest) -> opt_is (name s) "Use OpenJDK 14 (macOS only)" = false ->
  if_ s = None /\ masked s = false.
Proof.
  simpl. intros H.
  repeat destruct H as [H|H]; try contradiction; subst s; intros E;
    try discriminate E; split; reflexivity.
Qed.

Lemma runs_after_intro exit_code c a b i k :
  position a pytest = Some i -> position b pytest = Some k -> i < k ->
  opt_is (Some a) "Use OpenJDK 14 (macOS only)" = false ->
  runs_after exit_code (executed pytest_yaml pytest c exit_code) a b.
Proof.
  intros Ha Hb Hlt Hj. exists i, k.
  split; [exact Ha|]. split; [exact Hb|]. split; [exact Hlt|].
  rewrite executed_eq. intros H.
  apply position_from_nth in Ha as (_ & s & Hnth & Hn).
  rewrite Nat.sub_0_r in Hnth.
  assert (Hs : if_ s = None /\ masked s = false).
  { apply pytest_steps_unconditional_but_java.
    - eapply nth_error_In; exact Hnth.
    - destruct (name s) as [x|]; [|reflexivity].
      unfold opt_is in Hn. apply String.eqb_eq in Hn. subst x. exact Hj. }
  destruct Hs as [Hif Hm].
  assert (Hj' : 0 <= i < k) by lia.
  assert (Hnth' : nth_error (steps pytest) (i - 0) = Some s)
    by (rewrite Nat.sub_0_r; exact Hnth).
  destruct (trace_prior (env pytest_yaml) c exit_code (steps pytest) 0 true k H
                        i s Hj' Hnth' Hif) as [H1 [H2|H2]].
  - split; assumption.
  - rewrite Hm in H2. discriminate H2.
Qed.

(** ** Environment variables *)

Lemma append_empty_r (x : string) : x ++ EmptyString = x.
Proof. induction x as [|a x IH]; simpl; [reflexivity | rewrite IH; reflexivity]. Qed.

(** C6: the workflow defines exactly the two variables GAMS_VERSION
    (25.1.1) and depth (100) at its top level.  Both checkouts take their
    fetch-depth from depth and both tag fetches their --depth; the cache
    key is built from GAMS_VERSION.  Whatever values [g] and [d] the two
    variables are given, those are the values that reach these places, and
    with the values of the file they are 100 and 25.1.1. *)
Theorem workflow_env :
  env pytest_yaml = [("GAMS_VERSION", "25.1.1"); ("depth", "100")] /\
  map name checkouts = [Some "Check out ixmp"; Some "Check out message_ix"] /\
  length git_fetches = 2 /\
  (forall g d c,
     let w := with_env pytest_yaml [("GAMS_VERSION", g); ("depth", d)] in
     map (rendered_with w c "fetch-depth") checkouts = [Some [d]; Some [d]] /\
     map (render (env w) c) git_fetches =
       ["(cd ixmp; git fetch --tags --depth=" ++ d ++ ")";
        "(cd message_ix; git fetch --tags --depth=" ++ d ++ ")"]) /\
  (forall g d os py,
     let w := with_env pytest_yaml [("GAMS_VERSION", g); ("depth", d)] in
     rendered_with w (pair_of os py) "key" cache =
       Some [os ++ "-gams" ++ g ++ "-py" ++ py]) /\
  option_map (map (refers_to_env "GAMS_VERSION")) (lookup "key" (with_ cache)) = Some [true] /\
  (forall c, map (rendered_with pytest_yaml c "fetch-depth") checkouts
             = [Some ["100"]; Some ["100"]]) /\
  (forall c, map (render (env pytest_yaml) c) git_fetches =
             ["(cd ixmp; git fetch --tags --depth=100)";
              "(cd message_ix; git fetch --tags --depth=100)"]) /\
  (forall c, In c (expand (strategy pytest)) ->
     exists os py, c = pair_of os py /\
       rendered_with pytest_yaml c "key" cache = Some [os ++ "-gams25.1.1-py" ++ py]).
Proof.
  split; [reflexivity|]. split; [reflexivity|]. split; [reflexivity|].
  split; [intros g d c w; split|].
  - unfold rendered_with. simpl. unfold context_get. simpl.
    rewrite !append_empty_r. reflexivity.
  - simpl. unfold context_get. simpl. reflexivity.
  - split; [|split; [reflexivity|split; [reflexivity|split; [reflexivity|]]]].
    + intros g d os py w. unfold rendered_with. simpl. unfold context_get. simpl.
      rewrite !append_empty_r. reflexivity.
    + intros c Hc. rewrite expand_pytest in Hc. simpl in Hc.
      repeat destruct Hc as [Hc|Hc]; try contradiction; subst c;
        eexists _, _; (split; [reflexivity|]); reflexivity.
Qed.

(** ** Failing steps *)

(** C7: no step sets continue-on-error, nor does the job, and no [run:]
    line swallows a failing command; so in every job of the matrix a step
    that runs and exits non-zero makes the job conclude in failure.  The
    notebook, for its part, defines no exception class and raises nothing
    itself. *)
Theorem nonzero_exit_fails_job (c : combo) (exit_code : nat -> Z) (i : nat) :
  In c (expand (strategy pytest)) ->
  In i (executed pytest_yaml pytest c exit_code) ->
  exit_code i <> 0%Z ->
  concluded pytest_yaml pytest c exit_code = Failure /\
  map continue_on_error (steps pytest) = repeat None (length (steps pytest)) /\
  job_continue_on_error pytest = None /\
  existsb hides_failure (steps pytest) = false /\
  Python.cells_any Python.is_class Notebook.cells = false /\
  Python.cells_any Python.is_raise Notebook.cells = false.
Proof.
intros _ Hi Hne.
split; [|repeat split; reflexivity].
rewrite concluded_eq. rewrite executed_eq in Hi.
rewrite (final_unmasked (env pytest_yaml) c exit_code (steps pytest) 0 true eq_refl).
destruct (forallb (fun k => (exit_code k =? 0)%Z)
            (trace (env pytest_yaml) c exit_code 0 true (steps pytest))) eqn:E.
- rewrite forallb_forall in E. specialize (E i Hi).
  apply Z.eqb_eq in E. contradiction.
- reflexivity.
Qed.

Lemma nonzero_exit_fails_job_witness :
  concluded pytest_yaml pytest (pair_of "ubuntu-latest" "3.8")
    (fun i => if (i =? 14)%nat then 1%Z else 0%Z) = Failure.
Proof.
refine (proj1 (nonzero_exit_fails_job (pair_of "ubuntu-latest" "3.8")
                 (fun i => if (i =? 14)%nat then 1%Z else 0%Z) 14 _ _ _)).
- rewrite expand_pytest. simpl. auto 10.
- vm_compute. repeat (first [left; reflexivity | right]).
- simpl. lia.
Defined.

(** ** Which steps run *)

Lemma should_run_wanted envc c s : should_run envc c true s = wanted envc c s.
Proof. reflexivity. Qed.

(** When no step sets continue-on-error, a step of the list runs exactly
    when it is wanted and every wanted step before it exited zero. *)
Lemma trace_iff envc c exit_code ss :
  forallb (fun s => negb (masked s)) ss = true ->
  forall i k,
    In k (trace envc c exit_code i true ss) <->
    (i <= k /\
     (exists s, nth_error ss (k - i) = Some s /\ wanted envc c s = true) /\
     (forall j s', i <= j < k -> nth_error ss (j - i) = Some s' ->
        wanted envc c s' = true -> exit_code j = 0%Z)).
Proof.
induction ss as [|s0 rest IH]; intros Hm i k.
- split; [intros []|]. intros (_ & (s & Hn & _) & _).
  destruct (k - i); discriminate Hn.
- simpl in Hm. apply andb_true_iff in Hm as [Hm0 Hm]. apply negb_true_iff in Hm0.
  rewrite trace_cons, should_run_wanted, Hm0, orb_false_r.
  destruct (wanted envc c s0) eqn:W.
  + split.
    * intros [<-|Hin].
      -- split; [lia|]. split; [exists s0; rewrite Nat.sub_diag; auto|].
         intros j s' Hj. lia.
      -- destruct ((exit_code i =? 0)%Z) eqn:E.
         2:{ rewrite nothing_runs_after_failure in Hin. destruct Hin. }
         apply Z.eqb_eq in E.
         apply (IH Hm) in Hin as (Hle & (s & Hn & Hw) & Hall).
         split; [lia|]. split.
         { exists s. replace (k - i) with (S (k - S i)) by lia. auto. }
         intros j s' Hj Hn' Hw'.
         destruct (Nat.eq_dec j i) as [->|Hne]; [exact E|].
         apply (Hall j s'); [lia | | exact Hw'].
         replace (j - i) with (S (j - S i)) in Hn' by lia. exact Hn'.
    * intros (Hle & (s & Hn & Hw) & Hall).
      destruct (Nat.eq_dec k i) as [->|Hne]; [left; reflexivity|]. right.
      assert (E : exit_code i = 0%Z).
      { apply (Hall i s0); [lia | rewrite Nat.sub_diag; reflexivity | exact W]. }
      rewrite E, Z.eqb_refl. apply (IH Hm). split; [lia|]. split.
      { exists s. replace (k - i) with (S (k - S i)) in Hn by lia. auto. }
      intros j s' Hj Hn' Hw'. apply (Hall j s'); [lia | | exact Hw'].
      replace (j - i) with (S (j - S i)) by lia. exact Hn'.
  + split.
    * intros Hin. apply (IH Hm) in Hin as (Hle & (s & Hn & Hw) & Hall).
      split; [lia|]. split.
      { exists s. replace (k - i) with (S (k - S i)) by lia. auto. }
      intros j s' Hj Hn' Hw'.
      destruct (Nat.eq_dec j i) as [->|Hne].
      { rewrite Nat.sub_diag in Hn'. simpl in Hn'. injection Hn' as <-.
        rewrite W in Hw'. discriminate Hw'. }
      apply (Hall j s'); [lia | | exact Hw'].
      replace (j - i) with (S (j - S i)) in Hn' by lia. exact Hn'.
    * intros (Hle & (s & Hn & Hw) & Hall).
      destruct (Nat.eq_dec k i) as [->|Hne].
      { rewrite Nat.sub_diag in Hn. simpl in Hn. injection Hn as <-.
        rewrite W in Hw. discriminate Hw. }
      apply (IH Hm). split; [lia|]. split.
      { exists s. replace (k - i) with (S (k - S i)) in Hn by lia. auto. }
      intros j s' Hj Hn' Hw'. apply (Hall j s'); [lia | | exact Hw'].
      replace (j - i) with (S (j - S i)) by lia. exact Hn'.
Qed.

Lemma pytest_unmasked : forallb (fun s => negb (masked s)) (steps pytest) = true.
Proof. reflexivity. Qed.

Lemma trace_all_zero envc c exit_code ss :
  (forall i, exit_code i = 0%Z) ->
  forall i,
    trace envc c exit_code i true ss =
    map fst (filter (fun p => wanted envc c (snd p)) (combine (seq i (length ss)) ss)).
Proof.
intros H. induction ss as [|s0 rest IH]; intros i; [reflexivity|].
rewrite trace_cons, should_run_wanted, H, Z.eqb_refl. simpl.
destruct (wanted envc c s0); simpl; rewrite IH; reflexivity.
Qed.

(** ** The order of the invocations *)

Lemma step_wanted c j :
  j < length (steps pytest) ->
  exists s, nth_error (steps pytest) j = Some s /\
            (wanted (env pytest_yaml) c s = true <-> (j = 6 -> on_macos c = true)).
Proof.
change (length (steps pytest)) with 17. intros Hj.
do 17 (destruct j as [|j];
       [eexists; split; [reflexivity|];
        first [ split; [intros W _; exact W | intros H; apply H; reflexivity]
              | split; [intros _ E; discriminate E | intros _; reflexivity] ]|]).
lia.
Qed.

(** A step other than the OpenJDK one runs exactly when every step before
    it exited zero, the OpenJDK step counting only on macos. *)
Lemma ran_iff c exit_code k :
  k < length (steps pytest) -> k <> 6 ->
  (In k (executed pytest_yaml pytest c exit_code) <->
   forall j, j < k -> (j = 6 -> on_macos c = true) -> exit_code j = 0%Z).
Proof.
intros Hk H6. rewrite executed_eq.
rewrite (trace_iff (env pytest_yaml) c exit_code (steps pytest) pytest_unmasked 0 k).
split.
- intros (_ & _ & Hall) j Hj Hm.
  destruct (step_wanted c j) as (s & Hn & Hw); [lia|].
  apply (Hall j s); [lia | rewrite Nat.sub_0_r; exact Hn | apply Hw; exact Hm].
- intros H. split; [lia|]. split.
  + destruct (step_wanted c k Hk) as (s & Hn & Hw). exists s.
    rewrite Nat.sub_0_r. split; [exact Hn|]. apply Hw. intros E. contradiction.
  + intros j s' Hj Hn' Hw'. apply H; [lia|]. intros E. subst j.
    destruct (step_wanted c 6) as (s & Hn & Hw);
      [change (length (steps pytest)) with 17; lia|].
    rewrite Nat.sub_0_r in Hn'. rewrite Hn in Hn'. injection Hn' as <-.
    apply Hw; [exact Hw' | reflexivity].
Qed.

(** C5: in every job of the matrix, whatever the steps' exit codes, the
    steps run in the order of the file, each at most once, starting with the
    first one.  GAMS and Graphviz are installed before ixmp, ixmp before
    message_ix (with its extras), message_ix before the R packages, these
    before pytest, pytest before R CMD check, and that before the coverage
    upload: each of these invocations runs exactly when every step before it
    has exited zero, so pytest runs only after the GAMS step has run and
    succeeded; when every step exits zero all of them run, in this order;
    and the upload is the last step of the file, so no step runs after
    it. *)
Theorem steps_order (c : combo) (exit_code : nat -> Z) :
  In c (expand (strategy pytest)) ->
  let tr := executed pytest_yaml pytest c exit_code in
  StronglySorted lt tr /\
  runs_after exit_code tr gams_step ixmp_step /\
  runs_after exit_code tr ixmp_step message_ix_step /\
  runs_after exit_code tr message_ix_step r_step /\
  runs_after exit_code tr r_step pytest_step /\
  runs_after exit_code tr pytest_step r_check_step /\
  runs_after exit_code tr r_check_step codecov_step /\
  runs_after exit_code tr gams_step pytest_step /\
  working_directory install_ixmp = Some "ixmp" /\
  working_directory install_python_package = Some "message_ix" /\
  run install_ixmp = [line "pip install ."] /\
  run install_python_package = [line "pip install .[docs,reporting,tests,tutorial]"] /\
  position codecov_step pytest = Some (length (steps pytest) - 1) /\
  (forall k, In k tr -> k <= length (steps pytest) - 1) /\
  In 0 tr /\
  (forall n k, In n ordered_steps -> position n pytest = Some k ->
     (In k tr <->
      forall j, j < k -> (j = 6 -> on_macos c = true) -> exit_code j = 0%Z)) /\
  ((forall j, exit_code j = 0%Z) ->
   ordered_among (ran_names pytest tr) = ordered_steps).
Proof.
intros Hc tr. subst tr.
split.
{ rewrite executed_eq.
  exact (trace_sorted (env pytest_yaml) c exit_code (steps pytest) 0 true). }
split; [apply (runs_after_intro exit_code c gams_step ixmp_step 8 11); [reflexivity | reflexivity | lia | reflexivity]|].
split; [apply (runs_after_intro exit_code c ixmp_step message_ix_step 11 12); [reflexivity | reflexivity | lia | reflexivity]|].
split; [apply (runs_after_intro exit_code c message_ix_step r_step 12 13); [reflexivity | reflexivity | lia | reflexivity]|].
split; [apply (runs_after_intro exit_code c r_step pytest_step 13 14); [reflexivity | reflexivity | lia | reflexivity]|].
split; [apply (runs_after_intro exit_code c pytest_step r_check_step 14 15); [reflexivity | reflexivity | lia | reflexivity]|].
split; [apply (runs_after_intro exit_code c r_check_step codecov_step 15 16); [reflexivity | reflexivity | lia | reflexivity]|].
split; [apply (runs_after_intro exit_code c gams_step pytest_step 8 14); [reflexivity | reflexivity | lia | reflexivity]|].
do 5 (split; [reflexivity|]).
split.
{ intros k Hk. rewrite executed_eq in Hk.
  apply (trace_bounds (env pytest_yaml) c exit_code (steps pytest) 0 true k) in Hk.
  revert Hk. generalize (length (steps pytest)). intros n Hk. lia. }
split.
{ apply ran_iff; [change (length (steps pytest)) with 17; lia | lia |].
  intros j Hj. lia. }
split.
{ intros n k Hn Hp. unfold ordered_steps in Hn. simpl in Hn.
  repeat destruct Hn as [Hn|Hn]; try contradiction; subst n;
    vm_compute in Hp; injection Hp as <-;
    apply ran_iff; first [change (length (steps pytest)) with 17; lia | lia]. }
intros Hz. rewrite executed_eq, (trace_all_zero _ _ _ _ Hz 0).
rewrite expand_pytest in Hc. simpl in Hc.
repeat destruct Hc as [Hc|Hc]; try contradiction; subst c; vm_compute; reflexivity.
Qed.

Lemma steps_order_witness :
  ordered_among
    (ran_names pytest
       (executed pytest_yaml pytest (pair_of "ubuntu-latest" "3.8") (fun _ => 0%Z))) =
  ordered_steps.
Proof.
assert (H : In (pair_of "ubuntu-latest" "3.8") (expand (strategy pytest))).
{ rewrite expand_pytest. simpl. auto 10. }
destruct (steps_order (pair_of "ubuntu-latest" "3.8") (fun _ => 0%Z) H)
  as (_ & _ & _ & _ & _ & _ & _ & _ & _ & _ & _ & _ & _ & _ & _ & _ & Hg).
apply Hg. intros j. reflexivity.
Defined.

(** X1: the OpenJDK step is the seventh of the job; in any job it runs
    exactly when the job's os starts with macos and the six steps before it
    all exited zero.  Of the jobs of the matrix, the two macos ones are
    those where it can run. *)
Theorem java_only_on_macos (c : combo) (exit_code : nat -> Z) :
  position java_step pytest = Some 6 /\
  (In 6 (executed pytest_yaml pytest c exit_code) <->
     on_macos c = true /\ forall j, j < 6 -> exit_code j = 0%Z) /\
  filter on_macos (expand (strategy pytest)) =
    [pair_of "macos-latest" "3.6"; pair_of "macos-latest" "3.8"].
Proof.
split; [reflexivity|]. split; [|reflexivity].
rewrite executed_eq.
rewrite (trace_iff (env pytest_yaml) c exit_code (steps pytest) pytest_unmasked 0 6).
split.
- intros (_ & (s & Hn & Hw) & Hall).
  change (nth_error (steps pytest) (6 - 0)) with (Some use_openjdk) in Hn.
  injection Hn as <-. split; [exact Hw|].
  intros j Hj.
  do 6 (destruct j as [|j];
        [eapply Hall; [lia | reflexivity | reflexivity]|]).
  lia.
- intros [Hm Hz]. split; [lia|]. split.
  + exists use_openjdk. split; [reflexivity | exact Hm].
  + intros j s' Hj _ _. apply Hz. lia.
Qed.

Lemma failure_ends_trace envc c exit_code ss i k :
  forallb (fun s => negb (masked s)) ss = true ->
  In i (trace envc c exit_code 0 true ss) -> exit_code i <> 0%Z -> i < k ->
  ~ In k (trace envc c exit_code 0 true ss).
Proof.
intros Hm Hi Hne Hlt Hk.
apply (trace_iff envc c exit_code ss Hm 0 i) in Hi as (_ & (s & Hn & Hw) & _).
apply (trace_iff envc c exit_code ss Hm 0 k) in Hk as (_ & _ & Hall).
apply Hne. apply (Hall i s); [lia | exact Hn | exact Hw].
Qed.

(** X2: in any job, once a step has run and exited non-zero, no later step
    runs: no step of the file carries a condition that would let it run
    after a failure. *)
Theorem failure_ends_the_job (c : combo) (exit_code : nat -> Z) (i k : nat) :
  In i (executed pytest_yaml pytest c exit_code) ->
  exit_code i <> 0%Z ->
  i < k ->
  ~ In k (executed pytest_yaml pytest c exit_code).
Proof.
rewrite executed_eq. apply failure_ends_trace. exact pytest_unmasked.
Qed.

Lemma failure_ends_the_job_witness :
  ~ In 16 (executed pytest_yaml pytest (pair_of "ubuntu-latest" "3.8")
             (fun i => if (i =? 14)%nat then 1%Z else 0%Z)).
Proof.
refine (failure_ends_the_job (pair_of "ubuntu-latest" "3.8")
          (fun i => if (i =? 14)%nat then 1%Z else 0%Z) 14 16 _ _ _).
- vm_compute. repeat (first [left; reflexivity | right]).
- simpl. lia.
- lia.
Defined.

Lemma concluded_success (c : combo) (exit_code : nat -> Z) :
  concluded pytest_yaml pytest c exit_code = Success <->
  (forall i, In i (executed pytest_yaml pytest c exit_code) -> exit_code i = 0%Z).
Proof.
rewrite concluded_eq, executed_eq.
rewrite (final_unmasked (env pytest_yaml) c exit_code (steps pytest) 0 true pytest_unmasked).
rewrite andb_true_l.
destruct (forallb (fun k => (exit_code k =? 0)%Z)
            (trace (env pytest_yaml) c exit_code 0 true (steps pytest))) eqn:E.
- split; [|reflexivity]. intros _ i Hi.
  rewrite forallb_forall in E. apply Z.eqb_eq. apply E. exact Hi.
- split; [discriminate|]. intros H. exfalso.
  assert (Ht : forallb (fun k => (exit_code k =? 0)%Z)
                 (trace (env pytest_yaml) c exit_code 0 true (steps pytest)) = true).
  { apply forallb_forall. intros i Hi. apply Z.eqb_eq. apply H. exact Hi. }
  rewrite Ht in E. discriminate E.
Qed.

(** X3: a job concludes in success exactly when every step that ran exited
    zero. *)
Theorem success_iff_all_zero (c : combo) (exit_code : nat -> Z) :
  concluded pytest_yaml pytest c exit_code = Success <->
  (forall i, In i (executed pytest_yaml pytest c exit_code) -> exit_code i = 0%Z).
Proof. apply concluded_success. Qed.

(** X4: in a job of the matrix where every step exits zero, every step of
    the file runs, in order, except the OpenJDK step outside macos, and the
    job succeeds. *)
Theorem all_steps_run_when_green (c : combo) (exit_code : nat -> Z) :
  In c (expand (strategy pytest)) ->
  (forall i, exit_code i = 0%Z) ->
  concluded pytest_yaml pytest c exit_code = Success /\
  executed pytest_yaml pytest c exit_code =
    filter (fun i => negb (i =? 6)%nat || on_macos c) (seq 0 (length (steps pytest))).
Proof.
intros Hc Hz. split.
- apply concluded_success. intros i _. apply Hz.
- rewrite executed_eq, (trace_all_zero _ _ _ _ Hz 0).
  rewrite expand_pytest in Hc. simpl in Hc.
  repeat destruct Hc as [Hc|Hc]; try contradiction; subst c; vm_compute; reflexivity.
Qed.

Lemma all_steps_run_when_green_witness :
  concluded pytest_yaml pytest (pair_of "windows-latest" "3.8") (fun _ => 0%Z) = Success /\
  executed pytest_yaml pytest (pair_of "windows-latest" "3.8") (fun _ => 0%Z) =
    filter (fun i => negb (i =? 6)%nat || on_macos (pair_of "windows-latest" "3.8"))
      (seq 0 (length (steps pytest))).
Proof.
refine (all_steps_run_when_green (pair_of "windows-latest" "3.8") (fun _ => 0%Z) _ _).
- rewrite expand_pytest. simpl. auto 10.
- intros i. reflexivity.
Defined.

(** ** The cache keys *)

Lemma prefix_app_l (a x y : string) : String.prefix (a ++ x) (a ++ y) = String.prefix x y.
Proof.
induction a as [|ch a IH]; simpl; [reflexivity|].
destruct (ascii_dec ch ch) as [_|Hne]; [exact IH | exfalso; apply Hne; reflexivity].
Qed.

(** X5: whatever the values of GAMS_VERSION, of the os and of the Python
    version, the two restore-keys of the cache step are prefixes of its key,
    the first the longer one; with the values of the file, no two jobs of
    the matrix share a key. *)
Theorem restore_keys_are_prefixes (g d os py : string) :
  let w := with_env pytest_yaml [("GAMS_VERSION", g); ("depth", d)] in
  (exists k r1 r2,
     rendered_with w (pair_of os py) "key" cache = Some [k] /\
     rendered_with w (pair_of os py) "restore-keys" cache = Some [r1; r2] /\
     String.prefix r1 k = true /\
     String.prefix r2 r1 = true /\
     String.prefix r2 k = true) /\
  NoDup (map (fun c => rendered_with pytest_yaml c "key" cache) (expand (strategy pytest))).
Proof.
intros w. split.
- exists (os ++ "-gams" ++ g ++ "-py" ++ py), (os ++ "-gams" ++ g ++ "-"), (os ++ "-").
  split.
  { unfold rendered_with. simpl. unfold context_get. simpl.
    rewrite ?append_empty_r. reflexivity. }
  split.
  { unfold rendered_with. simpl. unfold context_get. simpl.
    rewrite ?append_empty_r. reflexivity. }
  split.
  { rewrite (prefix_app_l os), (prefix_app_l "-gams"), (prefix_app_l g). reflexivity. }
  split.
  { rewrite (prefix_app_l os). reflexivity. }
  rewrite (prefix_app_l os). reflexivity.
- vm_compute.
  repeat (constructor; [simpl; intros H; repeat destruct H as [H|H];
                        try discriminate H; exact H|]).
  constructor.
Qed.

(** ** References to the contexts *)

Lemma in_all {A : Type} (f : A -> bool) (l : list A) (x : A) :
  forallb f l = true -> In x l -> f x = true.
Proof. intros H Hx. rewrite forallb_forall in H. apply H. exact Hx. Qed.

(** X6: every [matrix.] reference of the job names an axis of its matrix,
    so that it renders as a non-empty value in every job; every [env.]
    reference names a variable of the workflow, except env.R_LIBS_USER in
    the paths of the cache, which the workflow does not define. *)
Theorem references_are_defined :
  (forall t a, In t (job_templates pytest) -> In a (matrix_refs t) ->
     In a (keys (matrix (strategy pytest)))) /\
  (forall t v, In t (job_templates pytest) -> In v (env_refs t) ->
     In v (keys (env pytest_yaml)) \/ v = "R_LIBS_USER") /\
  (forall c a, In c (expand (strategy pytest)) ->
     In a (keys (matrix (strategy pytest))) -> context_get c a <> EmptyString) /\
  lookup "R_LIBS_USER" (env pytest_yaml) = None.
Proof.
split; [|split; [|split; [|reflexivity]]].
- intros t a Ht Ha.
  assert (H : existsb (String.eqb a) (keys (matrix (strategy pytest))) = true).
  { refine (in_all (fun a => existsb (String.eqb a) (keys (matrix (strategy pytest))))
              (flat_map matrix_refs (job_templates pytest)) a _ _).
    - vm_compute. reflexivity.
    - apply in_flat_map. exists t. split; assumption. }
  apply existsb_exists in H as (x & Hx & E). apply String.eqb_eq in E. subst. exact Hx.
- intros t v Ht Hv.
  assert (H : existsb (String.eqb v) ("R_LIBS_USER" :: keys (env pytest_yaml)) = true).
  { refine (in_all (fun v => existsb (String.eqb v) ("R_LIBS_USER" :: keys (env pytest_yaml)))
              (flat_map env_refs (job_templates pytest)) v _ _).
    - vm_compute. reflexivity.
    - apply in_flat_map. exists t. split; assumption. }
  apply existsb_exists in H as (x & Hx & E). apply String.eqb_eq in E. subst x.
  destruct Hx as [<-|Hx]; [right; reflexivity | left; exact Hx].
- intros c a Hc Ha. rewrite expand_pytest in Hc. simpl in Hc, Ha.
  repeat destruct Hc as [Hc|Hc]; try contradiction; subst c;
    repeat destruct Ha as [Ha|Ha]; try contradiction; subst a;
    vm_compute; discriminate.
Qed.

(** ** What a job is given *)

(** X7: a job runs on the os of its matrix entry, under the name
    os-pyVERSION; setup-python is given the Python version of the entry and
    the GAMS installer its os; and no two jobs of the matrix have the same
    name. *)
Theorem job_identity (os py : string) :
  render (env pytest_yaml) (pair_of os py) (runs_on pytest) = os /\
  render (env pytest_yaml) (pair_of os py) (job_name pytest) = os ++ "-py" ++ py /\
  rendered_with pytest_yaml (pair_of os py) "python-version" setup_python = Some [py] /\
  option_map (render (env pytest_yaml) (pair_of os py))
    (lookup "CI_OS" (step_env install_gams)) = Some os /\
  NoDup (map (fun c => render (env pytest_yaml) c (job_name pytest))
           (expand (strategy pytest))).
Proof.
split; [|split; [|split; [|split]]].
- simpl. unfold context_get. simpl. apply append_empty_r.
- simpl. unfold context_get. simpl. rewrite append_empty_r. reflexivity.
- unfold rendered_with. simpl. unfold context_get. simpl.
  rewrite append_empty_r. reflexivity.
- simpl. unfold context_get. simpl. rewrite append_empty_r. reflexivity.
- vm_compute.
  repeat (constructor; [simpl; intros H; repeat destruct H as [H|H];
                        try discriminate H; exact H|]).
  constructor.
Qed.

End CI.


(** * Properties of the notebook *)

Module Tutorial.
Import Python Notebook.

Lemma first_failure_bound l : forall n k, first_failure l n = Some k -> k < n.
Proof.
induction l as [|b l IH]; intros [|n] k; simpl; try discriminate.
destruct b; [intros [= <-]; lia|].
destruct (first_failure l n) as [k'|] eqn:E; simpl; [|discriminate].
intros [= <-]. apply IH in E. lia.
Qed.

Lemma first_failure_none l : forall n,
  (forall k, k < n -> nth k l false = false) -> first_failure l n = None.
Proof.
induction l as [|b l IH]; intros [|n] H; simpl; try reflexivity.
destruct b.
- specialize (H 0 ltac:(lia)). discriminate H.
- rewrite IH; [reflexivity|]. intros k Hk. apply (H (S k)). lia.
Qed.

Lemma first_failure_some l : forall n k,
  k < n -> nth k l false = true -> (forall j, j < k -> nth j l false = false) ->
  first_failure l n = Some k.
Proof.
induction l as [|b l IH]; intros [|n] k Hk Hnth Hpre; simpl; try lia.
- destruct k; discriminate Hnth.
- destruct b.
  + destruct k; [reflexivity|]. specialize (Hpre 0 ltac:(lia)). discriminate Hpre.
  + destruct k; [discriminate Hnth|]. simpl in Hnth.
    rewrite (IH n k); [reflexivity | lia | exact Hnth |].
    intros j Hj. apply (Hpre (S j)). lia.
Qed.

Lemma sortedb_sound l : sortedb l = true -> StronglySorted le l.
Proof.
induction l as [|x l IH]; simpl; [constructor|].
intros H. apply andb_true_iff in H as [H1 H2].
constructor; [apply IH; exact H2|].
apply Forall_forall. intros y Hy.
rewrite forallb_forall in H1. apply Nat.leb_le. apply H1. exact Hy.
Qed.

Lemma beforeb_sound a b l : beforeb a b l = true -> before a b l.
Proof.
induction l as [|x0 l IH]; intros H i j x y Hi Hj Ha Hb.
- destruct i; discriminate Hi.
- change (beforeb a b (x0 :: l))
    with ((negb (b x0) || negb (existsb a (x0 :: l))) && beforeb a b l) in H.
  apply andb_true_iff in H as [H1 H2].
  destruct j as [|j].
  + simpl in Hj. injection Hj as <-.
    assert (Hex : existsb a (x0 :: l) = true).
    { apply existsb_exists. exists x. split; [|exact Ha].
      eapply nth_error_In. exact Hi. }
    rewrite Hb, Hex in H1. discriminate H1.
  + destruct i as [|i]; [lia|].
    simpl in Hi, Hj. specialize (IH H2 i j x y Hi Hj Ha Hb). lia.
Qed.

(** Case analysis on the answers of the platform, call by call: the list of
    failures is empty, starts with a failure, or starts with a success.  A
    run makes at most [ncalls] calls, so that many rounds settle it. *)
Ltac explore l n tac :=
  lazymatch n with
  | O => tac
  | S ?n' => destruct l as [|[|] l]; [ tac | tac | explore l n' tac ]
  end.

Ltac by_cases P tac :=
  let l := fresh "l" in
  let ys := fresh "ys" in
  let hz := fresh "hz" in
  let obj := fresh "obj" in
  destruct P as [l ys hz obj]; explore l 32 tac.

Lemma run_cases fuel P db0 : outcome_shape (first_failure (fails P) ncalls) (run fuel P db0).
Proof. by_cases P ltac:(vm_compute; repeat split). Qed.

Lemma names_prefix fuel P db0 :
  names (run fuel P db0) =
  firstn (match first_failure (fails P) ncalls with
          | Some k => S k
          | None => ncalls
          end) call_sequence.
Proof.
pose proof (run_cases fuel P db0) as H. unfold outcome_shape in H.
destruct (first_failure (fails P) ncalls) as [k|];
  destruct (run fuel P db0) as [[] s|[] s|]; try contradiction; unfold names, calls.
- destruct H as [_ H]. exact H.
- rewrite H. reflexivity.
Qed.

Lemma prefixes_in_order n : in_order (firstn n call_sequence) = true.
Proof.
do 33 (destruct n as [|n]; [vm_compute; reflexivity|]).
vm_compute; reflexivity.
Qed.

Lemma run_keeps_frame fuel P db0 : frame_kept db0 (run fuel P db0).
Proof. by_cases P ltac:(vm_compute; split; reflexivity). Qed.

Lemma run_submits_ok fuel P db0 :
  forallb record_ok (submitted (run fuel P db0)) &&
  Nat.eqb (add_par_calls (run fuel P db0)) (length (submitted (run fuel P db0))) = true.
Proof. by_cases P ltac:(vm_compute; reflexivity). Qed.

Lemma run_input_frame fuel P db0 : input_frame_ok (run fuel P db0).
Proof. by_cases P ltac:(vm_compute; repeat split). Qed.

(** ** The order of the calls *)

(** C1: whatever the platform answers, the calls of a run are a prefix of
    one fixed sequence, and the whole of it when no call raises: the
    connection, the clone of the baseline, the set members, the parameter
    rows, the commit, the solve, the plots.  In every run the stages never go
    back; every add_set comes before every add_par, both before the commit,
    the commit before the solve, the solve before all plotting.  No cell has
    an [if], a [while] or a [try] that could alter the order. *)
Theorem calls_in_order (fuel : nat) (P : answers) (db0 : database) :
  let l := names (run fuel P db0) in
  (exists n, l = firstn n call_sequence) /\
  ((forall k, k < ncalls -> raises P k = false) -> l = call_sequence) /\
  phases call_sequence =
    [0; 1; 2; 2; 2; 2; 3; 3; 3; 3; 3; 3; 3; 4; 5; 6; 6; 6; 6; 6; 6; 6; 6; 6; 6] /\
  StronglySorted le (phases l) /\
  before (named "ixmp.Platform") (named "clone") l /\
  before (named "clone") (named "add_set") l /\
  before (named "add_set") (named "add_par") l /\
  before (fun f => named "add_set" f || named "add_par" f) (named "commit") l /\
  before (named "commit") (named "solve") l /\
  before (named "solve") plotting l /\
  cells_any is_if cells = false /\
  cells_any is_while cells = false /\
  cells_any is_try cells = false.
Proof.
intros l. subst l. rewrite names_prefix.
set (n := match first_failure (fails P) ncalls with Some k => S k | None => ncalls end).
pose proof (prefixes_in_order n) as H. unfold in_order in H.
apply andb_true_iff in H as [H H7]. apply andb_true_iff in H as [H H6].
apply andb_true_iff in H as [H H5]. apply andb_true_iff in H as [H H4].
apply andb_true_iff in H as [H H3]. apply andb_true_iff in H as [H1 H2].
split; [exists n; reflexivity|].
split.
{ intros Hq. subst n. rewrite first_failure_none; [reflexivity|exact Hq]. }
split; [reflexivity|].
split; [apply sortedb_sound; exact H1|].
split; [apply beforeb_sound; exact H2|].
split; [apply beforeb_sound; exact H3|].
split; [apply beforeb_sound; exact H4|].
split; [apply beforeb_sound; exact H5|].
split; [apply beforeb_sound; exact H6|].
split; [apply beforeb_sound; exact H7|].
repeat split; reflexivity.
Qed.

(** ** Failures *)

(** C4: the cells hold no [if], no [try], no [while] and no [raise]; the one
    loop of the notebook goes over the grades of [potentials] and retries
    nothing.  So when the [k]-th call into the platform is the first to
    raise, the run ends in that exception, and that call is the last one
    made. *)
Theorem exceptions_propagate (fuel : nat) (P : answers) (db0 : database) (k : nat) :
  k < ncalls -> raises P k = true -> (forall j, j < k -> raises P j = false) ->
  cells_any is_if cells = false /\
  cells_any is_try cells = false /\
  cells_any is_while cells = false /\
  cells_any is_raise cells = false /\
  loop_heads = [Some ("grade", call (dot "potentials" "keys") [])] /\
  exists s, run fuel P db0 = Exc (PlatformError k) s /\ length (log s) = S k.
Proof.
intros Hk Hr Hpre.
repeat (split; [reflexivity|]).
pose proof (run_cases fuel P db0) as H.
rewrite (first_failure_some (fails P) ncalls k Hk Hr Hpre) in H.
unfold outcome_shape in H.
destruct (run fuel P db0) as [[] s|[] s|]; try contradiction.
destruct H as [-> Hl]. exists s. split; [reflexivity|].
rewrite <- (length_map callee), Hl. apply firstn_length_le.
change (length call_sequence) with ncalls. lia.
Qed.

Lemma exceptions_propagate_witness :
  exists s, run 0 (with_fails quiet [false; false; true]) [] = Exc (PlatformError 2) s /\
            length (log s) = 3.
Proof.
refine (proj2 (proj2 (proj2 (proj2 (proj2
  (exceptions_propagate 0 (with_fails quiet [false; false; true]) [] 2 _ _ _)))))).
- vm_compute. lia.
- reflexivity.
- intros j Hj. destruct j as [|[|j]]; [reflexivity | reflexivity | lia].
Defined.

(** ** The baseline scenario *)

Lemma key_eqb_eq a b : key_eqb a b = true -> a = b.
Proof.
destruct a as [a1 a2], b as [b1 b2]. unfold key_eqb. simpl.
intros H. apply andb_true_iff in H as [H1 H2].
apply String.eqb_eq in H1, H2. subst. reflexivity.
Qed.

Lemma holds_scenario_sound s x k h :
  holds_scenario s x k = true -> handle x s = Some h -> scenario_at s h = Some k.
Proof.
unfold holds_scenario. intros H Hh. rewrite Hh in H.
destruct (scenario_at s h) as [k'|]; [|discriminate H].
apply key_eqb_eq in H. subst. reflexivity.
Qed.

Lemma frame_ok_sound s :
  frame_ok s = true ->
  (forall e, In e (log s) -> writes (callee e) = true ->
     on_object (handle "scen" s) e = true) /\
  (forall e, In e (log s) -> on_object (handle "base" s) e = true ->
     callee e = "clone" /\
     nth_error (args e) 1 = Some (VStr "fossil_resources") /\
     lookup "keep_solution" (kwargs e) = Some (VBool false)) /\
  (forall e, In e (log s) -> base_passed_to s e = true -> callee e = "tools.Plots") /\
  (forall h, handle "base" s = Some h -> scenario_at s h = Some baseline) /\
  (forall h, handle "scen" s = Some h ->
     scenario_at s h = Some fossil_resources /\ handle "base" s <> Some h).
Proof.
unfold frame_ok. intros H.
apply andb_true_iff in H as [H HF]. apply andb_true_iff in H as [H HE].
apply andb_true_iff in H as [H HD]. apply andb_true_iff in H as [H HC].
apply andb_true_iff in H as [HA HB].
rewrite forallb_forall in HA, HB, HC.
split; [|split; [|split; [|split]]].
- intros e He Hw. specialize (HA e He). rewrite Hw in HA. exact HA.
- intros e He Hb. specialize (HB e He). rewrite Hb in HB.
  cbv beta iota delta [implb] in HB.
  unfold clones_without_solution in HB. apply andb_true_iff in HB as [Hn Hrest].
  unfold named in Hn. apply String.eqb_eq in Hn. split; [symmetry; exact Hn|].
  destruct (nth_error (args e) 1) as [[]|]; try discriminate Hrest.
  destruct (lookup "keep_solution" (kwargs e)) as [[]|]; try discriminate Hrest.
  destruct b; try discriminate Hrest.
  apply String.eqb_eq in Hrest. subst. split; reflexivity.
- intros e He Hp. specialize (HC e He). rewrite Hp in HC.
  cbv beta iota delta [implb] in HC.
  unfold named in HC. apply String.eqb_eq in HC. symmetry. exact HC.
- intros h Hh. eapply holds_scenario_sound; eassumption.
- intros h Hh. split; [eapply holds_scenario_sound; eassumption|].
  intros Hb. unfold distinct_objects in HF. rewrite Hb, Hh in HF.
  rewrite Nat.eqb_refl in HF. discriminate HF.
Qed.

(** C10: every run ends in a state in which the entry of the baseline
    scenario is the one the database had at the start.  Every check-out,
    add_set, add_par, commit, set_as_default and solve of the run is a call
    on the object [scen]; the only call on [base] is the clone, which names
    the new scenario fossil_resources and keeps no solution; [base] is
    otherwise only passed to [Plots].  [base] holds the baseline scenario,
    [scen] the scenario fossil_resources, and they are two objects. *)
Theorem baseline_untouched (fuel : nat) (P : answers) (db0 : database) :
  exists s,
    final_state (run fuel P db0) = Some s /\
    db_get baseline (db s) = db_get baseline db0 /\
    (forall e, In e (log s) -> writes (callee e) = true ->
       on_object (handle "scen" s) e = true) /\
    (forall e, In e (log s) -> on_object (handle "base" s) e = true ->
       callee e = "clone" /\
       nth_error (args e) 1 = Some (VStr "fossil_resources") /\
       lookup "keep_solution" (kwargs e) = Some (VBool false)) /\
    (forall e, In e (log s) -> base_passed_to s e = true -> callee e = "tools.Plots") /\
    (forall h, handle "base" s = Some h -> scenario_at s h = Some baseline) /\
    (forall h, handle "scen" s = Some h ->
       scenario_at s h = Some fossil_resources /\ handle "base" s <> Some h).
Proof.
pose proof (run_keeps_frame fuel P db0) as H. unfold frame_kept in H.
destruct (final_state (run fuel P db0)) as [s|]; [|contradiction].
destruct H as [Hdb Hok]. exists s.
split; [reflexivity|]. split; [exact Hdb|].
apply frame_ok_sound. exact Hok.
Qed.

(** ** The submitted records *)

Lemma strings_eqb_eq a : forall b, strings_eqb a b = true -> a = b.
Proof.
induction a as [|x a IH]; intros [|y b]; simpl; try discriminate; [reflexivity|].
intros H. apply andb_true_iff in H as [H1 H2].
apply String.eqb_eq in H1. apply IH in H2. subst. reflexivity.
Qed.

Lemma within_sound allowed v :
  within allowed v = true -> exists cs, columns_of v = Some cs /\ incl cs allowed.
Proof.
unfold within. destruct (columns_of v) as [cs|]; [|discriminate].
intros H. exists cs. split; [reflexivity|].
intros c Hc. rewrite forallb_forall in H. specialize (H c Hc).
apply existsb_exists in H as (x & Hx & E). apply String.eqb_eq in E. subst. exact Hx.
Qed.

(** C2, as stated, fails: on a platform where no call raises, the frame
    submitted for [input] has the column technology, which is none of node,
    commodity, grade, year, value, unit. *)
Lemma flat_columns_do_not_cover :
  exists v cs,
    In ("input", v) (submitted (run 0 quiet [])) /\
    columns_of v = Some cs /\
    In "technology" cs /\
    ~ In "technology" flat_columns.
Proof.
exists (nth 6 (map snd (submitted (run 0 quiet []))) VNone), input_columns.
split; [vm_compute; do 6 right; left; reflexivity|].
split; [reflexivity|].
split; [vm_compute; do 8 right; left; reflexivity|].
simpl. intros H. repeat destruct H as [H|H]; try discriminate H; exact H.
Qed.

(** C2 (amended): a record submitted by add_par is either for one of
    resource_volume, resource_cost, historical_extraction, with columns
    among node, commodity, grade, year, value, unit, or for input, with the
    columns node_loc, year_vtg, year_act, mode, node_origin, commodity, time,
    time_origin, technology, level, value, unit; and every add_par call
    submits such a record. *)
Theorem submitted_columns (fuel : nat) (P : answers) (db0 : database)
    (name : string) (v : value) :
  In (name, v) (submitted (run fuel P db0)) ->
  ((In name resource_parameters /\
    exists cs, columns_of v = Some cs /\ incl cs flat_columns) \/
   (name = "input" /\ columns_of v = Some input_columns)) /\
  add_par_calls (run fuel P db0) = length (submitted (run fuel P db0)).
Proof.
intros Hin. pose proof (run_submits_ok fuel P db0) as H.
apply andb_true_iff in H as [H Hn]. apply Nat.eqb_eq in Hn.
split; [|exact Hn].
rewrite forallb_forall in H. specialize (H _ Hin).
unfold record_ok in H. simpl fst in H. simpl snd in H.
apply orb_true_iff in H as [H|H]; apply andb_true_iff in H as [H1 H2].
- left. split; [|apply within_sound; exact H2].
  apply existsb_exists in H1 as (x & Hx & E).
  apply String.eqb_eq in E. subst. exact Hx.
- right. unfold named in H1. apply String.eqb_eq in H1. split; [symmetry; exact H1|].
  unfold has_columns in H2. destruct (columns_of v) as [cs|]; [|discriminate H2].
  apply strings_eqb_eq in H2. subst. reflexivity.
Qed.

Lemma submitted_columns_witness :
  In ("resource_cost", nth 1 (map snd (submitted (run 0 quiet []))) VNone)
     (submitted (run 0 quiet [])) /\
  add_par_calls (run 0 quiet []) = length (submitted (run 0 quiet [])).
Proof.
assert (Hin : In ("resource_cost", nth 1 (map snd (submitted (run 0 quiet []))) VNone)
                 (submitted (run 0 quiet []))).
{ vm_compute. right. left. reflexivity. }
split; [exact Hin|].
exact (proj2 (submitted_columns 0 quiet [] "resource_cost" _ Hin)).
Defined.

(** ** The [input] frame *)

Lemma lookup_update {V : Type} (k k' : string) (v : V) (d : list (string * V)) :
  lookup k (update k' v d) = if String.eqb k k' then Some v else lookup k d.
Proof.
induction d as [|[k0 v0] d IH]; simpl.
- destruct (String.eqb k k'); reflexivity.
- destruct (String.eqb k' k0) eqn:E0; simpl.
  + apply String.eqb_eq in E0. subst k0. destruct (String.eqb k k'); reflexivity.
  + rewrite IH. destruct (String.eqb k k') eqn:E1; [|reflexivity].
    apply String.eqb_eq in E1. subst k'. rewrite E0. reflexivity.
Qed.

(** In the model of [make_df], a keyword argument overrides the field of
    the same name, and the other fields are those of [base]. *)
Lemma dict_update_lookup (k : string) (kw : list (string * value)) :
  forall d, lookup k (dict_update d kw) =
            match lookup k (rev kw) with
            | Some x => Some x
            | None => lookup k d
            end.
Proof.
unfold dict_update.
induction kw as [|[k' v'] kw IH]; intros d; simpl; [reflexivity|].
rewrite IH, lookup_update.
assert (Happ : forall (l : list (string * value)),
          lookup k (l ++ [(k', v')]) =
          match lookup k l with
          | Some x => Some x
          | None => if String.eqb k k' then Some v' else None
          end).
{ induction l as [|[k0 v0] l IHl]; simpl; [reflexivity|].
  destruct (String.eqb k k0); [reflexivity | exact IHl]. }
rewrite Happ. destruct (lookup k (rev kw)); [reflexivity|].
destruct (String.eqb k k'); reflexivity.
Qed.

(** C9: the frame submitted for [input] is the dict [base_input] with the
    keyword arguments of the call laid over it: its commodity is coal, where
    [base_input] has electricity, its level is resource, its value 1, its
    unit %, and each of node_loc, year_vtg, year_act, mode, node_origin,
    time and time_origin is a field of [base_input], taken as it is. *)
Theorem input_frame (fuel : nat) (P : answers) (db0 : database) (v : value) :
  In ("input", v) (submitted (run fuel P db0)) ->
  exists columns items s,
    v = VFrame columns /\
    final_state (run fuel P db0) = Some s /\
    lookup "base_input" (vars s) = Some (VDict items) /\
    lookup "commodity" items = Some (VStr "electricity") /\
    lookup "commodity" columns = Some (VStr "coal") /\
    lookup "level" columns = Some (VStr "resource") /\
    lookup "value" columns = Some (VInt 1) /\
    lookup "unit" columns = Some (VStr "%") /\
    (forall f, In f kept_fields ->
       lookup f columns = lookup f items /\ lookup f items <> None).
Proof.
intros Hin.
assert (Hv : In v (inputs (run fuel P db0))).
{ unfold inputs. apply in_flat_map. exists ("input", v). split; [exact Hin|].
  simpl. left. reflexivity. }
pose proof (run_input_frame fuel P db0) as H. unfold input_frame_ok in H.
destruct (final_state (run fuel P db0)) as [s|]; [|contradiction].
destruct (inputs (run fuel P db0)) as [|x [|y rest]]; try contradiction.
- destruct Hv as [<-|[]].
  destruct x; try contradiction.
  destruct (lookup "base_input" (vars s)) as [[]|] eqn:Eb; try contradiction.
  destruct H as (H1 & H2 & H3 & H4 & H5 & H6 & H7).
  exists columns, items, s.
  split; [reflexivity|]. split; [reflexivity|]. split; [exact Eb|].
  split; [exact H1|]. split; [exact H2|]. split; [exact H3|].
  split; [exact H4|]. split; [exact H5|].
  intros f Hf. split.
  + exact (proj1 map_ext_in_iff H6 f Hf).
  + rewrite forallb_forall in H7. specialize (H7 f Hf). unfold defined in H7.
    destruct (lookup f items); [discriminate | discriminate H7].
- destruct x; contradiction.
Qed.

Lemma input_frame_witness :
  exists columns,
    nth 6 (map snd (submitted (run 0 quiet []))) VNone = VFrame columns /\
    lookup "commodity" columns = Some (VStr "coal").
Proof.
assert (Hin : In ("input", nth 6 (map snd (submitted (run 0 quiet []))) VNone)
                 (submitted (run 0 quiet []))).
{ vm_compute. do 6 right. left. reflexivity. }
destruct (input_frame 0 quiet [] _ Hin)
  as (columns & items & s & Hv & _ & _ & _ & Hc & _).
exists columns. split; [exact Hv | exact Hc].
Defined.

(** ** Further properties of a run *)

Lemma first_failure_spec l : forall n k,
  first_failure l n = Some k ->
  nth k l false = true /\ forall j, j < k -> nth j l false = false.
Proof.
induction l as [|b l IH]; intros [|n] k; simpl; try discriminate.
destruct b; [intros [= <-]; split; [reflexivity | intros j Hj; lia]|].
destruct (first_failure l n) as [k'|] eqn:E; simpl; [|discriminate].
intros [= <-]. apply IH in E as [H1 H2]. split; [exact H1|].
intros [|j] Hj; [reflexivity|]. apply H2. lia.
Qed.

Lemma first_failure_none_iff l n :
  first_failure l n = None <-> forall k, k < n -> nth k l false = false.
Proof.
split; [|apply first_failure_none].
intros H k Hk. destruct (nth k l false) eqn:E; [|reflexivity].
exfalso. revert n k H Hk E.
induction l as [|b l IH]; intros [|n] k H Hk E; try lia.
- destruct k; discriminate E.
- simpl in H. destruct b; [discriminate H|].
  destruct k as [|k]; [discriminate E|]. simpl in E.
  destruct (first_failure l n) eqn:F; [discriminate H|].
  apply (IH n k F); [lia | exact E].
Qed.

(** X8: the notebook has no failure of its own.  Whatever the platform
    returns and whatever the bound on loops, a run that ends in an exception
    ends in the exception of a platform call that raised, the first that
    did; no name is undefined, no key or index missing, no frame
    malformed. *)
Theorem only_platform_errors (fuel : nat) (P : answers) (db0 : database)
    (e : exn) (s : state) :
  run fuel P db0 = Exc e s ->
  exists k, e = PlatformError k /\ k < ncalls /\ raises P k = true /\
            forall j, j < k -> raises P j = false.
Proof.
intros Hr. pose proof (run_cases fuel P db0) as H. rewrite Hr in H.
unfold outcome_shape in H.
destruct (first_failure (fails P) ncalls) as [k|] eqn:E; [|contradiction].
destruct e; try contradiction. destruct H as [-> _].
exists k. split; [reflexivity|]. split; [eapply first_failure_bound; exact E|].
apply first_failure_spec in E. exact E.
Qed.

Lemma only_platform_errors_witness :
  exists k, PlatformError 2 = PlatformError k /\ k < ncalls /\
            raises (with_fails quiet [false; false; true]) k = true /\
            forall j, j < k -> raises (with_fails quiet [false; false; true]) j = false.
Proof.
refine (only_platform_errors 0 (with_fails quiet [false; false; true]) []
          (PlatformError 2)
          (match run 0 (with_fails quiet [false; false; true]) [] with
           | Exc _ s => s
           | _ => start []
           end) _).
vm_compute. reflexivity.
Defined.

Lemma all_are_in {A : Type} (x y : A) (l : list A) : all_are x l -> In y l -> y = x.
Proof. unfold all_are. intros H Hy. rewrite H in Hy. eapply repeat_spec. exact Hy. Qed.

Lemma run_years_flow fuel P db0 : years_flow P (run fuel P db0).
Proof. by_cases P ltac:(vm_compute; repeat split). Qed.

(** X11: the years of the submitted records are the platform's: in every
    run the year column of each resource_cost frame is the list of the
    scenario's set year as the platform returned it, the year_vtg and
    year_act columns of the input frame are the two columns of
    vintage_and_active_years(), the year of each historical_extraction
    frame is 690, and a resource_volume frame has no year. *)
Theorem years_come_from_the_platform (fuel : nat) (P : answers) (db0 : database)
    (x : option value) :
  (In x (column_values "resource_cost" "year" (run fuel P db0)) ->
     x = Some (VList (horizon P))) /\
  (In x (column_values "historical_extraction" "year" (run fuel P db0)) ->
     x = Some (VList [VInt 690])) /\
  (In x (column_values "resource_volume" "year" (run fuel P db0)) -> x = None) /\
  (In x (column_values "input" "year_vtg" (run fuel P db0)) -> x = Some (vintage P)) /\
  (In x (column_values "input" "year_act" (run fuel P db0)) -> x = Some (active P)).
Proof.
destruct (run_years_flow fuel P db0) as (H1 & H2 & H3 & H4 & H5).
repeat split; apply all_are_in; assumption.
Qed.

Lemma run_records fuel P db0 :
  map brief (submitted (run fuel P db0)) =
  firstn (length (submitted (run fuel P db0))) expected_records.
Proof. by_cases P ltac:(vm_compute; reflexivity). Qed.

Lemma run_records_complete fuel P db0 :
  match first_failure (fails P) ncalls with
  | None => map brief (submitted (run fuel P db0)) = expected_records
  | Some _ => True
  end.
Proof. by_cases P ltac:(vm_compute; try exact I; reflexivity). Qed.

(** X12: for each grade of the dict [potentials] of cell 10, in the order
    of the dict, the loop submits a resource_volume, a resource_cost and a
    historical_extraction record of that grade with the first, second and
    third number of the grade as value, and after the loop the input record
    with value 1.  A run cut short submits a prefix of these; a run in which
    no call raises submits them all. *)
Theorem records_follow_potentials (fuel : nat) (P : answers) (db0 : database) :
  potentials = [("a", [1500; 10; 280]%Z); ("b", [3500; 52; 0]%Z)] /\
  map brief (submitted (run fuel P db0)) =
    firstn (length (submitted (run fuel P db0))) expected_records /\
  ((forall k, k < ncalls -> raises P k = false) ->
   map brief (submitted (run fuel P db0)) = expected_records).
Proof.
split; [reflexivity|]. split; [apply run_records|].
intros Hq. pose proof (run_records_complete fuel P db0) as H.
rewrite (first_failure_none (fails P) ncalls Hq) in H. exact H.
Qed.

Lemma run_closes fuel P db0 :
  closes (run fuel P db0) = none_before (ncalls - 1) (fails P).
Proof. by_cases P ltac:(vm_compute; reflexivity). Qed.

Lemma run_close_returns fuel P db0 :
  returned "close_db" (run fuel P db0) =
  match run fuel P db0 with
  | Ok _ _ => true
  | _ => false
  end.
Proof. by_cases P ltac:(vm_compute; reflexivity). Qed.

(** X13: mp.close_db() is the last call of the notebook.  It is made
    exactly in the runs in which none of the calls before it raises, and it
    returns exactly in the runs that end without an exception: a run that
    ends in an exception has not called close_db, or has had close_db itself
    raise. *)
Theorem close_db_only_when_all_returned (fuel : nat) (P : answers) (db0 : database) :
  nth_error call_sequence (ncalls - 1) = Some "close_db" /\
  (In "close_db" (names (run fuel P db0)) <->
   forall k, k < ncalls - 1 -> raises P k = false) /\
  (returned "close_db" (run fuel P db0) = true <->
   exists s, run fuel P db0 = Ok tt s) /\
  (forall e s, run fuel P db0 = Exc e s ->
     ~ In "close_db" (names (run fuel P db0)) \/ e = PlatformError (ncalls - 1)).
Proof.
split; [reflexivity|].
pose proof (run_closes fuel P db0) as H. unfold closes, none_before in H.
split; [|split].
- split.
  + intros Hin. apply first_failure_none_iff.
    destruct (first_failure (fails P) (ncalls - 1)); [|reflexivity].
    assert (Hex : existsb (named "close_db") (names (run fuel P db0)) = true).
    { apply existsb_exists. exists "close_db". split; [exact Hin | reflexivity]. }
    rewrite Hex in H. discriminate H.
  + intros Hq. rewrite (first_failure_none (fails P) (ncalls - 1) Hq) in H.
    apply existsb_exists in H as (x & Hx & E).
    unfold named in E. apply String.eqb_eq in E. subst x. exact Hx.
- rewrite run_close_returns.
  destruct (run fuel P db0) as [[] s|e s|].
  + split; [intros _; exists s; reflexivity | reflexivity].
  + split; [discriminate | intros [s' Hs]; discriminate Hs].
  + split; [discriminate | intros [s' Hs]; discriminate Hs].
- intros e s Hr.
  pose proof (run_cases fuel P db0) as Hc. unfold outcome_shape in Hc.
  rewrite (names_prefix fuel P db0). rewrite Hr in Hc.
  destruct (first_failure (fails P) ncalls) as [k|] eqn:E; [|contradiction].
  destruct e; try contradiction. destruct Hc as [-> _].
  apply first_failure_bound in E. change ncalls with 32 in *.
  destruct (Nat.eq_dec k 31) as [->|Hne]; [right; reflexivity|]. left.
  intros Hin.
  assert (Hk : k < 31) by lia.
  assert (Hb : existsb (named "close_db") (firstn (S k) call_sequence) = false).
  { clear - Hk. do 31 (destruct k as [|k]; [vm_compute; reflexivity|]). lia. }
  assert (Ht : existsb (named "close_db") (firstn (S k) call_sequence) = true).
  { apply existsb_exists. exists "close_db". split; [exact Hin | reflexivity]. }
  rewrite Ht in Hb. discriminate Hb.
Qed.

Lemma same_name_eq v w : same_name v w = true -> v = w.
Proof.
destruct v, w; simpl; try discriminate.
intros H. apply String.eqb_eq in H. subst. reflexivity.
Qed.

Lemma run_declares fuel P db0 :
  all_declared "commodity" (run fuel P db0) &&
  all_declared "grade" (run fuel P db0) &&
  all_declared "level" (run fuel P db0) = true.
Proof. by_cases P ltac:(vm_compute; reflexivity). Qed.

Lemma all_declared_sound col r x :
  all_declared col r = true -> In x (mentioned col r) -> In x (declared col r).
Proof.
unfold all_declared. intros H Hx. rewrite forallb_forall in H.
apply H in Hx. apply existsb_exists in Hx as (y & Hy & E).
apply same_name_eq in E. subst. exact Hy.
Qed.

(** X14: a record never names a commodity, a grade or a level the notebook
    has not declared before: in every run, each commodity, grade and level
    that occurs in a frame handed to add_par is a member given to the set of
    that name by an add_set call that had returned. *)
Theorem records_use_declared_names (fuel : nat) (P : answers) (db0 : database)
    (x : value) :
  (In x (mentioned "commodity" (run fuel P db0)) ->
     In x (declared "commodity" (run fuel P db0))) /\
  (In x (mentioned "grade" (run fuel P db0)) ->
     In x (declared "grade" (run fuel P db0))) /\
  (In x (mentioned "level" (run fuel P db0)) ->
     In x (declared "level" (run fuel P db0))).
Proof.
pose proof (run_declares fuel P db0) as H.
apply andb_true_iff in H as [H H3]. apply andb_true_iff in H as [H1 H2].
repeat split; apply all_declared_sound; assumption.
Qed.

End Tutorial.
